(** * TREEEX mock authentication server: request routing and mock-auth state

    A shallow embedding of the dependency-free server [server.js]
    (functions [loadDB], [saveDB], [generateTokens], [parseBody], [sendJSON]
    and [handleRequest]) and of its older sibling
    [mock-auth-server-standalone.js], followed by the properties that the
    specification states.  The properties are proved of [server.js];
    further theorems cover the rest of its behaviour, the sibling, and the
    token store of the Express variant [mock-auth-server.js] (its helpers
    and its refresh, profile and logout callbacks).  The signup and signin
    callbacks of the Express variant are not embedded: they depend on a
    regular expression and on the framework's routing and body parsing.

    Conventions of the embedding.
    - JSON data is the inductive type [JS.Json]; a JavaScript value that may be
      [undefined] is an [option Json] with [None] for [undefined].
    - A user record is a JSON object, kept as the list of its fields.
    - [crypto.randomUUID()] returns the next element of a sequence [uuid] of
      identifiers; the process state counts how many were drawn.  Where a
      property needs two draws to differ, it assumes [uuid] injective.
    - [new Date()] and [Date.now()] read the clock of the environment [Env]
      that accompanies each request; whether [fs.writeFileSync] succeeds is
      an input of the same environment.
    - An exception thrown inside the [try] block of [handleRequest] is the
      outcome [Threw] of the handler monad; the state reached before the
      throw is kept, as in JavaScript.
    - A [console.log] whose template literal interpolates an email is the
      step [console_log]: what it prints is not modelled, but the conversion
      of the email to a string is, since it throws for some JSON values
      ([JS.printable] tells which).  Log lines that interpolate strings or
      numbers only cannot throw and are left out.
    - The request-target is the string [url].  [Url.pathname] is the
      pathname that the platform computes for targets in origin form with a
      plain path ([Url.origin_form]), the Host header being valid;
      properties that speak of every target are stated for such
      targets. *)

From Stdlib Require Import List String Ascii ZArith Bool Arith Lia.
Import ListNotations.
Open Scope string_scope.

(** ** JavaScript values as the server uses them *)

Module JS.

Set Warnings "-register-all".

Inductive Json : Type :=
| JNull
| JBool (b : bool)
| JNum (n : Z)
| JStr (s : string)
| JArr (items : list Json)
| JObj (fields : list (string * Json)).

(** A value that may be [undefined]. *)
Definition Value : Type := option Json.

(** JavaScript truthiness: [!v] is [negb (truthy v)].  Numbers are
    integers here; a JSON number is falsy exactly when it is zero. *)
Definition truthy (v : Json) : bool :=
  match v with
  | JNull => false
  | JBool b => b
  | JNum n => negb (Z.eqb n 0)
  | JStr s => negb (String.eqb s "")
  | JArr _ => true
  | JObj _ => true
  end.

Definition truthyV (v : Value) : bool :=
  match v with
  | None => false
  | Some j => truthy j
  end.

(** [a === b] for two values that come from different places (a stored
    record and a request body): primitives compare by content, objects
    and arrays by identity, so two of them are never equal. *)
Definition strict_eq (a b : Value) : bool :=
  match a, b with
  | None, None => true
  | Some JNull, Some JNull => true
  | Some (JBool x), Some (JBool y) => Bool.eqb x y
  | Some (JNum x), Some (JNum y) => Z.eqb x y
  | Some (JStr x), Some (JStr y) => String.eqb x y
  | _, _ => false
  end.

(** Own property of an object given by its field list. *)
Fixpoint lookup (k : string) (fields : list (string * Json)) : Value :=
  match fields with
  | [] => None
  | (k', v) :: rest => if String.eqb k k' then Some v else lookup k rest
  end.

(** [v.k] for a value [v] that is neither [null] nor [undefined]; the
    names the server reads ([email], [password], [name], [refresh_token],
    [user_id], ...) are properties of objects only. *)
Definition get (v : Json) (k : string) : Value :=
  match v with
  | JObj fields => lookup k fields
  | _ => None
  end.

(** [JSON.stringify] of an object literal and back: a property whose
    value is [undefined] is left out. *)
Fixpoint stringify (literal : list (string * Value)) : list (string * Json) :=
  match literal with
  | [] => []
  | (k, Some v) :: rest => (k, v) :: stringify rest
  | (_, None) :: rest => stringify rest
  end.

(** [{...a, ...b}]: the properties of [a] not overridden by [b], then
    the properties of [b]. *)
Definition spread (a b : list (string * Json)) : list (string * Json) :=
  filter (fun kv => match lookup (fst kv) b with None => true | Some _ => false end) a ++ b.

Definition keys (fields : list (string * Json)) : list string := map fst fields.

(** [s.split(c)[0]]: the part of [s] before the first [c]. *)
Fixpoint before (c : ascii) (s : string) : string :=
  match s with
  | EmptyString => EmptyString
  | String a rest => if Ascii.eqb a c then EmptyString else String a (before c rest)
  end.

(** Whether a value parsed from JSON converts to a string, as a template
    literal requires.  Primitives do.  An object is converted by its
    [toString] method: an object without an own property of that name
    inherits the method and prints as "[object Object]"; an own property
    [toString] hides the method, is not callable (no JSON value is), and
    [valueOf] yields no primitive either, so the conversion throws a
    [TypeError].  An array joins the strings of its elements, so it
    converts when each of them does. *)
Fixpoint printable (v : Json) : bool :=
  match v with
  | JArr items => forallb printable items
  | JObj fields =>
      match lookup "toString" fields with
      | None => true
      | Some _ => false
      end
  | _ => true
  end.

(** [undefined] converts to "undefined". *)
Definition printableV (v : Value) : bool :=
  match v with
  | None => true
  | Some j => printable j
  end.

End JS.
Import JS.

(** ** The request-target

    [new URL(req.url, base).pathname] for a request-target in origin form
    ([/path?query]) whose path needs no normalisation: the target up to the
    first [?] or [#].  The URL parser does more on other targets: it
    removes the dot segments [.] and [..], turns a backslash into a slash,
    percent-encodes some characters, reads a target that starts with two
    slashes or with a scheme as naming another host, and throws when that
    host is invalid.  [origin_form] delimits the targets on which none of
    this happens; [pathname] is that of the platform on these targets, and
    properties that speak of every target are stated for them. *)

Module Url.

Fixpoint pathname (target : string) : string :=
  match target with
  | EmptyString => EmptyString
  | String a rest =>
      if Ascii.eqb a "?" || Ascii.eqb a "#" then EmptyString
      else String a (pathname rest)
  end.

(** Letters, digits, [-], [.], [_] and [~]: the characters that a URL
    path carries unchanged whatever the parser. *)
Definition unreserved (a : ascii) : bool :=
  let n := nat_of_ascii a in
  Nat.leb 65 n && Nat.leb n 90 || Nat.leb 97 n && Nat.leb n 122
  || Nat.leb 48 n && Nat.leb n 57
  || Ascii.eqb a "-" || Ascii.eqb a "." || Ascii.eqb a "_" || Ascii.eqb a "~".

(** The pieces of a path between its slashes. *)
Fixpoint segments (path : string) : list string :=
  match path with
  | EmptyString => [EmptyString]
  | String a rest =>
      if Ascii.eqb a "/" then EmptyString :: segments rest
      else match segments rest with
           | segment :: more => String a segment :: more
           | [] => [String a EmptyString]
           end
  end.

Definition plain_segment (segment : string) : bool :=
  forallb unreserved (list_ascii_of_string segment)
  && negb (String.eqb segment ".") && negb (String.eqb segment "..").

(** An absolute path that does not start with two slashes, whose
    segments are plain; a query or fragment may follow. *)
Definition origin_form (target : string) : bool :=
  let path := pathname target in
  String.prefix "/" path && negb (String.prefix "//" path)
  && forallb plain_segment (segments path).

End Url.

(** ** Requests, responses, process state *)

(** What the request stream delivers to [parseBody]. *)
Inductive RawBody : Type :=
| EmptyBody
| JsonText (v : Json)
| Malformed.

(** A request as Node hands it to [handleRequest]: [url] is the
    request-target.  The [Host] header, from which the server builds the
    base of the URL, is taken to name a valid host (or to be absent), so
    that it plays no part in the pathname. *)
Record Request : Type := mkRequest {
  method : string;
  url : string;
  authorization : option string;
  raw_body : RawBody
}.

Record Response : Type := mkResponse {
  status : Z;
  headers : list (string * string);
  body : option Json
}.

Record Env : Type := mkEnv {
  now_iso : string;
  now_ms : Z;
  write_ok : bool
}.

Definition UserRecord : Type := list (string * Json).

(** [users] is [db.users]; [disk] is the content of the snapshot file
    ([None] while the file does not exist); [draws] counts the calls of
    [crypto.randomUUID()] so far. *)
Record State : Type := mkState {
  users : list UserRecord;
  disk : option (list UserRecord);
  draws : nat
}.

Definition blank : State := mkState [] None 0.

(** ** The handler monad: state that survives a throw *)

Inductive Outcome (A : Type) : Type :=
| Returned (a : A)
| Threw.
Arguments Returned {A} a.
Arguments Threw {A}.

Definition Handler (A : Type) : Type := State -> Outcome A * State.

Definition ret {A} (a : A) : Handler A := fun st => (Returned a, st).

Definition throw {A} : Handler A := fun st => (Threw, st).

Definition bind {A B} (c : Handler A) (k : A -> Handler B) : Handler B :=
  fun st =>
    match c st with
    | (Returned a, st') => k a st'
    | (Threw, st') => (Threw, st')
    end.

Notation "x <- c ;; k" := (bind c (fun x => k))
  (at level 61, c at next level, right associativity).
Notation "c ;;; k" := (bind c (fun _ => k))
  (at level 61, right associativity).

Definition cors_headers : list (string * string) :=
  [("Access-Control-Allow-Origin", "*");
   ("Access-Control-Allow-Methods", "GET, POST, OPTIONS");
   ("Access-Control-Allow-Headers", "Content-Type, Authorization")].

Definition sendJSON (statusCode : Z) (data : list (string * Value)) : Response :=
  mkResponse statusCode
    (("Content-Type", "application/json") :: cors_headers)
    (Some (JObj (stringify data))).

Definition preflight : Response := mkResponse 204 cors_headers None.

Record Tokens : Type := mkTokens {
  access_token : string;
  refresh_token : string;
  token_type : string;
  expires_at : Z
}.

(** ** Vocabulary of the properties *)

Inductive Route : Type :=
| Preflight | Health | Signup | Signin | Refresh | Me | Unmatched.

(** The operation that the route tests of [handleRequest] select. *)
Definition route_of (req : Request) : Route :=
  let pathname := Url.pathname (url req) in
  let method := method req in
  if String.eqb method "OPTIONS" then Preflight
  else if String.eqb method "GET" && String.eqb pathname "/health" then Health
  else if String.eqb method "POST" && String.eqb pathname "/api/auth/signup" then Signup
  else if String.eqb method "POST" && String.eqb pathname "/api/auth/signin" then Signin
  else if String.eqb method "POST" && String.eqb pathname "/api/auth/refresh" then Refresh
  else if String.eqb method "GET" && String.eqb pathname "/api/auth/me" then Me
  else Unmatched.

Definition body_fields (r : Response) : list (string * Json) :=
  match body r with
  | Some (JObj fields) => fields
  | _ => []
  end.

Definition body_field (k : string) (r : Response) : Value :=
  lookup k (body_fields r).

Definition body_keys (r : Response) : list string := keys (body_fields r).

Definition user_ids (us : list UserRecord) : list Value :=
  map (lookup "user_id") us.

Definition emails (us : list UserRecord) : list Value :=
  map (lookup "email") us.

(** Every record of the collection defines a [user_id]. *)
Definition identified (us : list UserRecord) : Prop :=
  Forall (fun u => exists id : Json, lookup "user_id" u = Some id) us.

Definition snapshot (st : State) : list UserRecord :=
  match disk st with
  | Some us => us
  | None => []
  end.

(** A request with a JSON object as its body. *)
Definition post (path : string) (fields : list (string * Json)) : Request :=
  mkRequest "POST" path None (JsonText (JObj fields)).

Definition credentials (email password : Json) : list (string * Json) :=
  [("email", email); ("password", password)].

Definition with_url (req : Request) (target : string) : Request :=
  mkRequest (method req) target (authorization req) (raw_body req).


(** The entries of a structured validation error. *)
Definition detail_entries (r : Response) : list Json :=
  match body_field "detail" r with
  | Some (JArr entries) => entries
  | _ => []
  end.

(** The one entry that signup reports for missing fields. *)
Definition generic_entry : Json :=
  JObj [("loc", JArr [JStr "body"; JStr "field"]);
        ("msg", JStr "field required");
        ("type", JStr "value_error.missing")].

(** The required signup fields that a body does not define. *)
Definition missing_fields (fields : list (string * Json)) : list string :=
  filter (fun k => match lookup k fields with None => true | Some _ => false end)
         ["email"; "password"].

(** The value under [k] in an object literal once [undefined] properties
    are dropped. *)
Fixpoint lookup_literal (k : string) (literal : list (string * Value)) : Value :=
  match literal with
  | [] => None
  | (k', v) :: rest =>
      if String.eqb k k'
      then match v with
           | Some j => Some j
           | None => lookup_literal k rest
           end
      else lookup_literal k rest
  end.

Definition access_tokens (rs : list Response) : list Value :=
  map (body_field "access_token") rs.

(** [v || true] *)
Definition or_true (v : Value) : Json :=
  match v with
  | Some j => if truthy j then j else JBool true
  | None => JBool true
  end.

(** The object literal that profile fetch sends for the record [user]. *)
Definition profile (user : UserRecord) : list (string * Value) :=
  [("user_id", lookup "user_id" user);
   ("email", lookup "email" user);
   ("name", lookup "name" user);
   ("email_verified", Some (or_true (lookup "email_verified" user)));
   ("is_active", Some (or_true (lookup "is_active" user)));
   ("created_at", lookup "created_at" user);
   ("last_login_at", lookup "last_login_at" user)].

(** The email that profile fetch writes to its log converts to a string:
    that of the first stored record, if there is one (the made-up
    administrator has a string for its email). *)
Definition reportable (us : list UserRecord) : bool :=
  match hd_error us with
  | Some u => printableV (lookup "email" u)
  | None => true
  end.

(** Every stored email is a string, as the data model has it. *)
Definition string_emails (us : list UserRecord) : Prop :=
  Forall (fun u => exists e : string, lookup "email" u = Some (JStr e)) us.

(** A concrete sequence of pairwise distinct identifiers, used where a
    property is evaluated on an example run. *)
Fixpoint tally (n : nat) : string :=
  match n with
  | O => EmptyString
  | S k => String "i" (tally k)
  end.

Definition sample_uuid (n : nat) : string := "uuid-" ++ tally n.

Definition noon : Env := mkEnv "2024-01-01T12:00:00.000Z" 1704110400000 true.

(** ** The server [server.js] *)

Section Server.

(** The identifiers that [crypto.randomUUID()] returns, in order. *)
Variable uuid : nat -> string.

Definition randomUUID : Handler string :=
  fun st => (Returned (uuid (draws st)),
             mkState (users st) (disk st) (S (draws st))).

(** [fs.writeFileSync(DB_FILE, JSON.stringify(db))] inside a [try] whose
    [catch] only logs. *)
Definition saveDB (env : Env) : Handler unit :=
  fun st => (Returned tt,
             mkState (users st)
                     (if write_ok env then Some (users st) else disk st)
                     (draws st)).

(** Process start: [db] is [{users: []}], then [loadDB()] reads the
    snapshot if the file exists and creates it otherwise. *)
Definition loadDB (env : Env) (st : State) : State :=
  match disk st with
  | Some snapshot => mkState snapshot (disk st) (draws st)
  | None => snd (saveDB env (mkState [] (disk st) (draws st)))
  end.

Definition generateTokens (env : Env) : Handler Tokens :=
  a <- randomUUID ;;
  r <- randomUUID ;;
  ret (mkTokens ("mock_access_token_" ++ a)
                ("mock_refresh_token_" ++ r)
                "bearer"
                (now_ms env / 1000 + 3600)%Z).

(** [parseBody]: the empty stream resolves to [{}], malformed text
    rejects ([None]). *)
Definition parseBody (raw : RawBody) : option Json :=
  match raw with
  | EmptyBody => Some (JObj [])
  | JsonText v => Some v
  | Malformed => None
  end.

(** [const { a, b } = body]: a [TypeError] when [body] is [null]. *)
Definition destructure (body : Json) : Handler (string -> Value) :=
  match body with
  | JNull => throw
  | _ => ret (get body)
  end.

(** [email.split('@')[0]]: only strings have [split]. *)
Definition local_part (email : Json) : Handler Json :=
  match email with
  | JStr s => ret (JStr (before "@" s))
  | _ => throw
  end.

(** [v || d], where [d] is evaluated only if [v] is falsy. *)
Definition js_or (v : Value) (d : Handler Json) : Handler Json :=
  match v with
  | Some j => if truthy j then ret j else d
  | None => d
  end.

Definition push (u : UserRecord) : Handler unit :=
  fun st => (Returned tt, mkState (users st ++ [u])%list (disk st) (draws st)).

(** [db.users.find(u => u.email === email)] *)
Definition find_user (email : Json) : Handler (option UserRecord) :=
  fun st => (Returned (find (fun u => strict_eq (lookup "email" u) (Some email)) (users st)), st).

(** [db.users[0]] *)
Definition first_user : Handler (option UserRecord) :=
  fun st => (Returned (hd_error (users st)), st).

(** [console.log(`... ${v}`)]: evaluating the template literal converts
    [v] to a string, which may throw; what is printed is not modelled. *)
Definition console_log (v : Value) : Handler unit :=
  if printableV v then ret tt else throw.

Definition detail (msg : string) : list (string * Value) :=
  [("detail", Some (JStr msg))].

(** [try { ... } catch (error) { sendJSON(res, 500, ...) }] around a
    handler that sends its response as its last action. *)
Definition try_catch (h : Handler Response) (st : State) : State * Response :=
  match h st with
  | (Returned response, st') => (st', response)
  | (Threw, st') => (st', sendJSON 500 (detail "Internal server error"))
  end.

Definition invalid_json : Response := sendJSON 400 (detail "Invalid JSON").

Definition field_required : list (string * Value) :=
  [("detail",
    Some (JArr [JObj [("loc", JArr [JStr "body"; JStr "field"]);
                      ("msg", JStr "field required");
                      ("type", JStr "value_error.missing")]]))].

Definition signup (env : Env) (req : Request) : Handler Response :=
  match parseBody (raw_body req) with
  | None => ret invalid_json
  | Some body =>
      field <- destructure body ;;
      match field "email", field "password" with
      | Some email, Some password =>
          if negb (truthy email) || negb (truthy password)
          then ret (sendJSON 400 (detail "Email and password are required"))
          else
            user_id <- randomUUID ;;
            name <- js_or (field "name") (local_part email) ;;
            let newUser : UserRecord :=
              [("user_id", JStr user_id);
               ("name", name);
               ("email", email);
               ("created_at", JStr (now_iso env));
               ("is_active", JBool true);
               ("email_verified", JBool true);
               ("last_login_at", JNull)] in
            push newUser ;;;
            saveDB env ;;;
            tokens <- generateTokens env ;;
            console_log (Some email) ;;;
            ret (sendJSON 200
                   [("user_id", lookup "user_id" newUser);
                    ("name", lookup "name" newUser);
                    ("email", lookup "email" newUser);
                    ("access_token", Some (JStr (access_token tokens)));
                    ("refresh_token", Some (JStr (refresh_token tokens)))])
      | _, _ => ret (sendJSON 422 field_required)
      end
  end.

Definition signin (env : Env) (req : Request) : Handler Response :=
  match parseBody (raw_body req) with
  | None => ret invalid_json
  | Some body =>
      field <- destructure body ;;
      match field "email", field "password" with
      | Some email, Some password =>
          if negb (truthy email) || negb (truthy password)
          then ret (sendJSON 400 (detail "Email and password are required"))
          else
            found <- find_user email ;;
            user <- match found with
                    | Some u => ret u
                    | None => ghost <- randomUUID ;; ret [("user_id", JStr ghost)]
                    end ;;
            tokens <- generateTokens env ;;
            console_log (Some email) ;;;
            ret (sendJSON 200
                   [("user_id", lookup "user_id" user);
                    ("access_token", Some (JStr (access_token tokens)));
                    ("refresh_token", Some (JStr (refresh_token tokens)));
                    ("token_type", Some (JStr "bearer"))])
      | _, _ => ret (sendJSON 422 (detail "Email and password are required"))
      end
  end.

Definition tokens_json (t : Tokens) : list (string * Value) :=
  [("access_token", Some (JStr (access_token t)));
   ("refresh_token", Some (JStr (refresh_token t)));
   ("token_type", Some (JStr (token_type t)));
   ("expires_at", Some (JNum (expires_at t)))].

Definition refresh (env : Env) (req : Request) : Handler Response :=
  match parseBody (raw_body req) with
  | None => ret invalid_json
  | Some body =>
      field <- destructure body ;;
      if negb (truthyV (field "refresh_token"))
      then ret (sendJSON 422 (detail "Refresh token required"))
      else
        tokens <- generateTokens env ;;
        ret (sendJSON 200 (tokens_json tokens))
  end.

(** [!authHeader || !authHeader.startsWith('Bearer ')] *)
Definition not_bearer (authHeader : option string) : bool :=
  match authHeader with
  | None => true
  | Some h => String.eqb h "" || negb (String.prefix "Bearer " h)
  end.

Definition me (env : Env) (req : Request) : Handler Response :=
  if not_bearer (authorization req)
  then ret (sendJSON 401 (detail "Not authenticated"))
  else
    first <- first_user ;;
    user <- match first with
            | Some u => ret u
            | None =>
                admin <- randomUUID ;;
                ret [("user_id", JStr admin);
                     ("name", JStr "Mock Admin");
                     ("email", JStr "admin@treeex.io");
                     ("created_at", JStr (now_iso env));
                     ("is_active", JBool true);
                     ("email_verified", JBool true);
                     ("last_login_at", JStr (now_iso env))]
            end ;;
    console_log (lookup "email" user) ;;;
    email_verified <- js_or (lookup "email_verified" user) (ret (JBool true)) ;;
    is_active <- js_or (lookup "is_active" user) (ret (JBool true)) ;;
    ret (sendJSON 200
           [("user_id", lookup "user_id" user);
            ("email", lookup "email" user);
            ("name", lookup "name" user);
            ("email_verified", Some email_verified);
            ("is_active", Some is_active);
            ("created_at", lookup "created_at" user);
            ("last_login_at", lookup "last_login_at" user)]).

(** The [try] block of [handleRequest]: the chain of route tests. *)
Definition dispatch (env : Env) (req : Request) (method pathname : string)
  : Handler Response :=
  if String.eqb method "GET" && String.eqb pathname "/health"
  then ret (sendJSON 200 [("status", Some (JStr "running"))])
  else if String.eqb method "POST" && String.eqb pathname "/api/auth/signup"
  then signup env req
  else if String.eqb method "POST" && String.eqb pathname "/api/auth/signin"
  then signin env req
  else if String.eqb method "POST" && String.eqb pathname "/api/auth/refresh"
  then refresh env req
  else if String.eqb method "GET" && String.eqb pathname "/api/auth/me"
  then me env req
  else ret (sendJSON 404 (detail "Not found")).

(** [handleRequest] builds the URL first, before the test for OPTIONS
    and outside the [try] block.  For a target in [Url.origin_form] the
    constructor succeeds and yields [Url.pathname]; for other targets it
    may yield another pathname or throw, in which case the server sends no
    response: this definition describes the server on the former. *)
Definition handleRequest (env : Env) (req : Request) (st : State)
  : State * Response :=
  let pathname := Url.pathname (url req) in
  let method := method req in
  if String.eqb method "OPTIONS" then (st, preflight)
  else try_catch (dispatch env req method pathname) st.

(** *** Runs of the process *)

(** The process serves a request, or is stopped and started again: a new
    process begins with an empty [db] and calls [loadDB]. *)
Inductive Event : Type :=
| Serve (env : Env) (req : Request)
| Restart (env : Env).

Definition step (e : Event) (st : State) : State * list Response :=
  match e with
  | Serve env req =>
      let (st', response) := handleRequest env req st in (st', [response])
  | Restart env => (loadDB env (mkState [] (disk st) (draws st)), [])
  end.

Fixpoint run (events : list Event) (st : State) : State * list Response :=
  match events with
  | [] => (st, [])
  | e :: rest =>
      let (st1, out1) := step e st in
      let (st2, out2) := run rest st1 in
      (st2, (out1 ++ out2)%list)
  end.

(** The states a server can be in: it starts with no snapshot file. *)
Inductive reachable : State -> Prop :=
| reach_blank : reachable blank
| reach_step (e : Event) (st : State) :
    reachable st -> reachable (fst (step e st)).

Definition same_lifetime (events : list Event) : bool :=
  forallb (fun e => match e with Serve _ _ => true | Restart _ => false end) events.

(** The handler that each route runs inside the [try] block. *)
Definition handler_of (r : Route) (env : Env) (req : Request) : Handler Response :=
  match r with
  | Preflight => ret preflight
  | Health => ret (sendJSON 200 [("status", Some (JStr "running"))])
  | Signup => signup env req
  | Signin => signin env req
  | Refresh => refresh env req
  | Me => me env req
  | Unmatched => ret (sendJSON 404 (detail "Not found"))
  end.

(** The record that profile fetch reports: [db.users[0]], or the
    administrator made up on the spot. *)
Definition profiled (env : Env) (st : State) : UserRecord :=
  match hd_error (users st) with
  | Some u => u
  | None =>
      [("user_id", JStr (uuid (draws st)));
       ("name", JStr "Mock Admin");
       ("email", JStr "admin@treeex.io");
       ("created_at", JStr (now_iso env));
       ("is_active", JBool true);
       ("email_verified", JBool true);
       ("last_login_at", JStr (now_iso env))]
  end.

(** The record that a successful signup stores. *)
Definition stored_record (user_id : string) (name email : Json) (created_at : string)
  : UserRecord :=
  [("user_id", JStr user_id);
   ("name", name);
   ("email", email);
   ("created_at", JStr created_at);
   ("is_active", JBool true);
   ("email_verified", JBool true);
   ("last_login_at", JNull)].

(** [name || email.split('@')[0]] when it does not throw. *)
Definition display_name (name : Value) (email : Json) : option Json :=
  let local := match email with
               | JStr s => Some (JStr (before "@" s))
               | _ => None
               end in
  match name with
  | Some j => if truthy j then Some j else local
  | None => local
  end.

(** The token pair issued when [n] identifiers have been drawn. *)
Definition issue (env : Env) (n : nat) : Tokens :=
  mkTokens ("mock_access_token_" ++ uuid n)
           ("mock_refresh_token_" ++ uuid (S n))
           "bearer"
           (now_ms env / 1000 + 3600)%Z.

Definition bump (n : nat) (st : State) : State :=
  mkState (users st) (disk st) (n + draws st).

(** The record found by signin for [email], if any. *)
Definition find_by_email (email : Json) (us : list UserRecord) : option UserRecord :=
  find (fun u => strict_eq (lookup "email" u) (Some email)) us.

(** A record as signup writes it, with one of the first [n] identifiers. *)
Definition signup_record (n : nat) (u : UserRecord) : Prop :=
  exists (k : nat) (name email : Json) (created_at : string),
    k < n /\ u = stored_record (uuid k) name email created_at.

(** The collection and the snapshot hold records written by signup, with
    identifiers drawn so far. *)
Definition state_ok (st : State) : Prop :=
  Forall (signup_record (draws st)) (users st) /\
  Forall (signup_record (draws st)) (snapshot st).

(** No two stored records carry the same [user_id]. *)
Definition ids_unique (st : State) : Prop :=
  NoDup (user_ids (users st)) /\ NoDup (user_ids (snapshot st)).

(** [v] is an access token made from an identifier drawn after the first
    [lo] and among the first [hi]. *)
Definition issued_between (lo hi : nat) (v : Value) : Prop :=
  exists k, lo <= k /\ k < hi /\ v = Some (JStr ("mock_access_token_" ++ uuid k)).

(** What serving one request can do to the state: leave the collection
    and the snapshot alone, or append one record and rewrite the
    snapshot. *)
Inductive effect (env : Env) (st st' : State) : Prop :=
| kept :
    users st' = users st -> disk st' = disk st -> draws st <= draws st' ->
    effect env st st'
| added (name email : Json) :
    users st' = (users st ++ [stored_record (uuid (draws st)) name email (now_iso env)])%list ->
    disk st' = (if write_ok env then Some (users st') else disk st) ->
    draws st' = 3 + draws st ->
    effect env st st'.

End Server.

(** ** The older sibling [mock-auth-server-standalone.js]

    Same state and helpers; it compares the raw [req.url] with the route
    paths, swallows malformed bodies, collapses missing and empty fields
    into one check, and sends stored records as they are. *)

Module Standalone.

Section Server.

Variable uuid : nat -> string.

(** A property list as an object literal. *)
Definition literal (fields : list (string * Json)) : list (string * Value) :=
  map (fun kv => (fst kv, Some (snd kv))) fields.

Definition generateTokens : Handler (list (string * Json)) :=
  a <- randomUUID uuid ;;
  r <- randomUUID uuid ;;
  ret [("access_token", JStr ("mock_access_token_" ++ a));
       ("refresh_token", JStr ("mock_refresh_token_" ++ r));
       ("token_type", JStr "bearer")].

(** [parseBody]: malformed text resolves to [{}] as well. *)
Definition parseBody (raw : RawBody) : Json :=
  match raw with
  | EmptyBody => JObj []
  | JsonText v => v
  | Malformed => JObj []
  end.

Definition email_required : list (string * Value) :=
  [("detail",
    Some (JArr [JObj [("loc", JArr [JStr "body"; JStr "email"]);
                      ("msg", JStr "field required");
                      ("type", JStr "value_error.missing")]]))].

Definition signup (env : Env) (req : Request) : Handler Response :=
  field <- destructure (parseBody (raw_body req)) ;;
  match field "email", field "password" with
  | Some email, Some password =>
      if negb (truthy email) || negb (truthy password)
      then ret (sendJSON 422 email_required)
      else
        user_id <- randomUUID uuid ;;
        name <- js_or (field "name") (ret (JStr "New User")) ;;
        let newUser : UserRecord :=
          [("user_id", JStr user_id); ("name", name); ("email", email)] in
        push newUser ;;;
        saveDB env ;;;
        tokens <- generateTokens ;;
        console_log (Some email) ;;;
        ret (sendJSON 200 (literal (spread newUser tokens)))
  | _, _ => ret (sendJSON 422 email_required)
  end.

Definition signin (env : Env) (req : Request) : Handler Response :=
  field <- destructure (parseBody (raw_body req)) ;;
  match field "email", field "password" with
  | Some email, Some password =>
      if negb (truthy email) || negb (truthy password)
      then ret (sendJSON 422 (detail "Email and password required"))
      else
        found <- find_user email ;;
        user <- match found with
                | Some u => ret u
                | None => ghost <- randomUUID uuid ;; ret [("user_id", JStr ghost)]
                end ;;
        tokens <- generateTokens ;;
        console_log (Some email) ;;;
        ret (sendJSON 200 (("user_id", lookup "user_id" user) :: literal tokens))
  | _, _ => ret (sendJSON 422 (detail "Email and password required"))
  end.

Definition refresh (env : Env) (req : Request) : Handler Response :=
  field <- destructure (parseBody (raw_body req)) ;;
  if negb (truthyV (field "refresh_token"))
  then ret (sendJSON 422 (detail "Refresh token required"))
  else
    tokens <- generateTokens ;;
    ret (sendJSON 200 (literal tokens)).

Definition me (env : Env) (req : Request) : Handler Response :=
  if not_bearer (authorization req)
  then ret (sendJSON 401 (detail "Not authenticated"))
  else
    first <- first_user ;;
    user <- match first with
            | Some u => ret u
            | None =>
                admin <- randomUUID uuid ;;
                ret [("user_id", JStr admin);
                     ("name", JStr "Mock Admin");
                     ("email", JStr "admin@treeex.io")]
            end ;;
    console_log (lookup "email" user) ;;;
    ret (sendJSON 200 (literal user)).

Definition dispatch (env : Env) (req : Request) (method url : string)
  : Handler Response :=
  if String.eqb method "GET" && String.eqb url "/health"
  then ret (sendJSON 200 [("status", Some (JStr "running"))])
  else if String.eqb method "POST" && String.eqb url "/api/auth/signup"
  then signup env req
  else if String.eqb method "POST" && String.eqb url "/api/auth/signin"
  then signin env req
  else if String.eqb method "POST" && String.eqb url "/api/auth/refresh"
  then refresh env req
  else if String.eqb method "GET" && String.eqb url "/api/auth/me"
  then me env req
  else ret (sendJSON 404 (detail "Not found")).

Definition handleRequest (env : Env) (req : Request) (st : State)
  : State * Response :=
  if String.eqb (method req) "OPTIONS" then (st, preflight)
  else try_catch (dispatch env req (method req) (url req)) st.

End Server.

End Standalone.

(** ** The token store of the Express variant [mock-auth-server.js]

    The helpers [generateTokens] and [verifyAccessToken] and the route
    callbacks for refresh, profile fetch and logout, over the three
    [Map]s of the module.  A [Map] with string keys is the list of its
    entries in insertion order.  The callbacks take what Express hands
    them: the parsed [req.body] and the [Authorization] header.  The
    signup and signin callbacks depend on a regular expression and are
    not embedded.  The log lines of the embedded callbacks interpolate a
    user identifier or the email of a stored record, which this server
    stores as a lower-cased string; they cannot throw and are left out. *)

Module Express.

Record TokenData : Type := mkTokenData {
  userId : string;
  expiresAt : Z
}.

Record Store : Type := mkStore {
  users : list (string * UserRecord);
  tokens : list (string * TokenData);
  refreshTokens : list (string * TokenData);
  drawn : nat
}.

Record Reply : Type := mkReply {
  code : Z;
  payload : list (string * Json)
}.

Inductive Verification : Type :=
| Invalid (error : string) (status : Z)
| Valid (user : string).

(** [m.get(k)] *)
Fixpoint map_get {V : Type} (k : string) (m : list (string * V)) : option V :=
  match m with
  | [] => None
  | (k', v) :: rest => if String.eqb k k' then Some v else map_get k rest
  end.

(** [m.set(k, v)]: an existing key keeps its place. *)
Fixpoint map_set {V : Type} (k : string) (v : V) (m : list (string * V))
  : list (string * V) :=
  match m with
  | [] => [(k, v)]
  | (k', v') :: rest =>
      if String.eqb k k' then (k, v) :: rest else (k', v') :: map_set k v rest
  end.

(** [m.delete(k)] *)
Definition map_delete {V : Type} (k : string) (m : list (string * V))
  : list (string * V) :=
  filter (fun kv => negb (String.eqb k (fst kv))) m.

(** [s.substring(n)] *)
Fixpoint substring_from (n : nat) (s : string) : string :=
  match n, s with
  | O, _ => s
  | S _, EmptyString => EmptyString
  | S k, String _ rest => substring_from k rest
  end.

(** A value of the request body used as a [Map] key: only a string can
    equal one of the keys, which are all strings. *)
Definition get_by_value {V : Type} (k : Json) (m : list (string * V)) : option V :=
  match k with
  | JStr s => map_get s m
  | _ => None
  end.

Definition delete_by_value {V : Type} (k : Json) (m : list (string * V))
  : list (string * V) :=
  match k with
  | JStr s => map_delete s m
  | _ => m
  end.

Definition reply (status : Z) (data : list (string * Value)) : Reply :=
  mkReply status (stringify data).

Definition detail (msg : string) : list (string * Value) :=
  [("detail", Some (JStr msg))].

(** The error-handling middleware, reached when a callback throws. *)
Definition internal_error : Reply := reply 500 (detail "Internal server error").

Section Callbacks.

(** The identifiers that [uuidv4()] returns, in order. *)
Variable uuid : nat -> string.

Definition generateTokens (env : Env) (user : string) (s : Store)
  : list (string * Json) * Store :=
  let accessToken := "mock_access_" ++ uuid (drawn s) in
  let refreshToken := "mock_refresh_" ++ uuid (S (drawn s)) in
  ([("access_token", JStr accessToken);
    ("refresh_token", JStr refreshToken);
    ("token_type", JStr "bearer");
    ("expires_in", JNum 3600)],
   mkStore (users s)
           (map_set accessToken (mkTokenData user (now_ms env + 3600000)%Z) (tokens s))
           (map_set refreshToken (mkTokenData user (now_ms env + 2592000000)%Z)
                    (refreshTokens s))
           (S (S (drawn s)))).

Definition verifyAccessToken (env : Env) (authHeader : option string) (s : Store)
  : Verification * Store :=
  match authHeader with
  | None => (Invalid "Missing or invalid authorization header" 401, s)
  | Some h =>
      if not_bearer (Some h)
      then (Invalid "Missing or invalid authorization header" 401, s)
      else
        let token := substring_from 7 h in
        match map_get token (tokens s) with
        | None => (Invalid "Invalid or expired access token" 401, s)
        | Some tokenData =>
            if (expiresAt tokenData <? now_ms env)%Z
            then (Invalid "Access token has expired" 401,
                  mkStore (users s) (map_delete token (tokens s))
                          (refreshTokens s) (drawn s))
            else (Valid (userId tokenData), s)
        end
  end.

Definition refresh_token_required : list (string * Value) :=
  [("detail",
    Some (JArr [JObj [("loc", JArr [JStr "body"; JStr "refresh_token"]);
                      ("msg", JStr "field required");
                      ("type", JStr "value_error.missing")]]))].

(** [app.post('/api/auth/refresh', ...)] *)
Definition refresh (env : Env) (body : Json) (s : Store) : Reply * Store :=
  match body with
  | JNull => (internal_error, s)
  | _ =>
      match get body "refresh_token" with
      | None => (reply 422 refresh_token_required, s)
      | Some refresh_token =>
          if negb (truthy refresh_token)
          then (reply 422 refresh_token_required, s)
          else
            match get_by_value refresh_token (refreshTokens s) with
            | None => (reply 401 (detail "Invalid or expired refresh token"), s)
            | Some tokenData =>
                if (expiresAt tokenData <? now_ms env)%Z
                then (reply 401 (detail "Refresh token has expired"),
                      mkStore (users s) (tokens s)
                              (delete_by_value refresh_token (refreshTokens s))
                              (drawn s))
                else
                  let (authTokens, s1) := generateTokens env (userId tokenData) s in
                  (mkReply 200 authTokens,
                   mkStore (users s1) (tokens s1)
                           (delete_by_value refresh_token (refreshTokens s1))
                           (drawn s1))
            end
      end
  end.

(** [app.get('/api/auth/me', ...)] *)
Definition me (env : Env) (authHeader : option string) (s : Store) : Reply * Store :=
  match verifyAccessToken env authHeader s with
  | (Invalid error status, s1) => (reply status (detail error), s1)
  | (Valid user, s1) =>
      match find (fun u => strict_eq (lookup "user_id" u) (Some (JStr user)))
                 (map snd (users s1)) with
      | None => (reply 404 (detail "User not found"), s1)
      | Some u =>
          (reply 200 [("user_id", lookup "user_id" u);
                      ("name", lookup "name" u);
                      ("email", lookup "email" u);
                      ("created_at", lookup "created_at" u)],
           s1)
      end
  end.

(** [app.post('/api/auth/logout', ...)] *)
Definition logout (authHeader : option string) (s : Store) : Reply * Store :=
  let s1 :=
    match authHeader with
    | None => s
    | Some h =>
        if not_bearer (Some h) then s
        else
          let token := substring_from 7 h in
          match map_get token (tokens s) with
          | None => s
          | Some tokenData =>
              mkStore (users s)
                      (map_delete token (tokens s))
                      (filter (fun kv => negb (String.eqb (userId (snd kv)) (userId tokenData)))
                              (refreshTokens s))
                      (drawn s)
          end
    end in
  (reply 200 [("message", Some (JStr "Successfully logged out"))], s1).

End Callbacks.

End Express.

(** ** Vocabulary of the further properties *)

(** The routes that read the request body. *)
Definition reads_body (req : Request) : Prop :=
  route_of req = Signup \/ route_of req = Signin \/ route_of req = Refresh.


(** The access tokens that a list of responses carries. *)
Definition issued_tokens (rs : list Response) : list Json :=
  flat_map (fun r => match body_field "access_token" r with
                     | Some t => [t]
                     | None => []
                     end) rs.

(** ** Restarts and the snapshot *)

(** A new process on the same snapshot file: [db] starts empty and
    [loadDB] runs. *)
Definition restart (env : Env) (st : State) : State :=
  loadDB env (mkState [] (disk st) (draws st)).

(** The snapshot file holds exactly the collection. *)
Definition persisted (st : State) : Prop := snapshot st = users st.

(** ** Sample requests and states *)

Definition alice_signup : Request :=
  post "/api/auth/signup"
       [("email", JStr "alice@example.com");
        ("password", JStr "securepassword");
        ("name", JStr "Alice")].

Definition alice_signin : Request :=
  post "/api/auth/signin"
       (credentials (JStr "alice@example.com") (JStr "anypassword")).

Definition bob_signin : Request :=
  post "/api/auth/signin" (credentials (JStr "bob@notexists.com") (JStr "x")).

Definition any_refresh : Request :=
  post "/api/auth/refresh" [("refresh_token", JStr "any_random_string_works")].

Definition fake_me : Request :=
  mkRequest "GET" "/api/auth/me" (Some "Bearer totally_fake_token_12345") EmptyBody.

Definition empty_signup : Request := post "/api/auth/signup" [].

(** The server after Alice signed up, and after she signed up twice. *)
Definition with_alice : State :=
  fst (handleRequest sample_uuid noon alice_signup blank).

Definition with_alice_twice : State :=
  fst (handleRequest sample_uuid noon alice_signup with_alice).

(** A moment at which the snapshot file cannot be written. *)
Definition dusk : Env := mkEnv "2024-01-01T18:00:00.000Z" 1704132000000 false.

Definition malformed_signin : Request :=
  mkRequest "POST" "/api/auth/signin" None Malformed.

Definition null_signup : Request :=
  mkRequest "POST" "/api/auth/signup" None (JsonText JNull).

Definition empty_signin : Request := post "/api/auth/signin" [].

Definition charlie_signup : Request :=
  post "/api/auth/signup"
       [("email", JStr "charlie@example.com"); ("password", JStr "password123")].

Definition numeric_signup : Request :=
  post "/api/auth/signup" [("email", JNum 5); ("password", JStr "x")].

Definition query_signin : Request :=
  post "/api/auth/signin?ref=google"
       (credentials (JStr "any@test.com") (JStr "any")).

(** A day on which three users sign up, Alice twice, with a signin for
    an unknown email in between. *)
Definition busy_day : list Event :=
  [Serve noon alice_signup; Serve noon bob_signin;
   Serve noon charlie_signup; Serve noon alice_signup].

Definition crowded : State := fst (run sample_uuid busy_day blank).

(** An email that does not convert to a string: an object whose own
    property [toString] hides the inherited method. *)
Definition opaque_email : Json := JObj [("toString", JNum 1)].

Definition opaque_signup : Request :=
  post "/api/auth/signup"
       [("email", opaque_email); ("password", JStr "x"); ("name", JStr "Eve")].

Definition opaque_signin : Request :=
  post "/api/auth/signin" (credentials opaque_email (JStr "x")).


(** The Express store after one pair of tokens was issued to user [u-1]. *)
Definition empty_store : Express.Store := Express.mkStore [] [] [] 0.

Definition one_session : Express.Store :=
  snd (Express.generateTokens sample_uuid noon "u-1" empty_store).

(** * Properties of [server.js] *)

Section Properties.

Variable uuid : nat -> string.

(** Two draws of [crypto.randomUUID()] never return the same identifier. *)
Hypothesis uuid_fresh : forall i j : nat, uuid i = uuid j -> i = j.

Abbreviation handle := (handleRequest uuid).

(** ** Routing *)

Lemma handleRequest_route (env : Env) (req : Request) (st : State) :
  handle env req st = try_catch (handler_of uuid (route_of req) env req) st.
Proof.
  unfold handleRequest, route_of, dispatch.
  destruct (String.eqb (method req) "OPTIONS"); [reflexivity|].
  repeat match goal with
         | |- context [if ?b then _ else _] => destruct b; [reflexivity|]
         end.
  reflexivity.
Qed.

Lemma pathname_drops_query (target query : string) :
  Url.pathname (target ++ "?" ++ query) = Url.pathname target.
Proof.
  induction target as [|a rest IH]; [reflexivity|].
  cbn [append Url.pathname].
  destruct (Ascii.eqb a "?" || Ascii.eqb a "#"); [reflexivity|].
  now rewrite <- IH.
Qed.

(** C9. The route and the whole outcome of a request (new state and
    response) are determined by the method and by the request-target cut
    at its query component (the other inputs being equal): appending any
    query string to the target of a request changes neither the selected
    operation nor the outcome. *)
Theorem query_string_ignored :
  (forall (req : Request) (query : string),
      route_of (with_url req (url req ++ "?" ++ query)) = route_of req /\
      forall env st,
        handle env (with_url req (url req ++ "?" ++ query)) st = handle env req st) /\
  (forall req1 req2 : Request,
      method req1 = method req2 ->
      Url.pathname (url req1) = Url.pathname (url req2) ->
      route_of req1 = route_of req2 /\
      (authorization req1 = authorization req2 ->
       raw_body req1 = raw_body req2 ->
       forall env st, handle env req1 st = handle env req2 st)) /\
  route_of (post "/api/auth/signin?ref=google" []) = Signin.
Proof.
  assert (same : forall req1 req2 : Request,
             method req1 = method req2 ->
             Url.pathname (url req1) = Url.pathname (url req2) ->
             route_of req1 = route_of req2 /\
             (authorization req1 = authorization req2 ->
              raw_body req1 = raw_body req2 ->
              forall env st, handle env req1 st = handle env req2 st)).
  { intros req1 req2 Hm Hp. split.
    - unfold route_of. now rewrite Hm, Hp.
    - intros Ha Hb env st.
      unfold handleRequest, dispatch, signup, signin, refresh, me.
      now rewrite Hm, Hp, Ha, Hb. }
  split; [|split; [exact same | reflexivity]].
  intros req query.
  destruct (same (with_url req (url req ++ "?" ++ query)) req) as [Hr Hh].
  - reflexivity.
  - apply pathname_drops_query.
  - split; [exact Hr|]. intros env st. now apply Hh.
Qed.

(** ** Profile fetch *)

Lemma not_bearer_prefix (h : string) :
  not_bearer (Some h) = negb (String.prefix "Bearer " h).
Proof. destruct h; reflexivity. Qed.

Lemma js_or_true (v : Value) (st : State) :
  js_or v (ret (JBool true)) st = (Returned (or_true v), st).
Proof.
  destruct v as [j|]; [|reflexivity].
  unfold js_or, or_true. now destruct (truthy j).
Qed.

Lemma me_rejected (env : Env) (req : Request) (st : State) :
  not_bearer (authorization req) = true ->
  me uuid env req st = (Returned (sendJSON 401 (detail "Not authenticated")), st).
Proof. intros H. unfold me. now rewrite H. Qed.

Lemma me_accepted (env : Env) (req : Request) (st : State) :
  not_bearer (authorization req) = false ->
  me uuid env req st =
  (if printableV (lookup "email" (profiled uuid env st))
   then Returned (sendJSON 200 (profile (profiled uuid env st)))
   else Threw,
   match hd_error (users st) with
   | Some _ => st
   | None => mkState (users st) (disk st) (S (draws st))
   end).
Proof.
  intros H. unfold me, profiled. rewrite H.
  unfold bind at 1. unfold first_user.
  destruct (hd_error (users st)) as [u|].
  - unfold bind at 1. unfold ret at 1.
    unfold bind at 1. unfold console_log.
    destruct (printableV (lookup "email" u)); [|reflexivity].
    unfold ret at 1.
    unfold bind at 1. rewrite js_or_true.
    unfold bind at 1. rewrite js_or_true. reflexivity.
  - unfold bind at 1. unfold bind at 1. unfold randomUUID, ret at 1.
    unfold bind at 1. unfold console_log.
    cbn [lookup String.eqb Ascii.eqb Bool.eqb printableV printable].
    unfold ret at 1.
    unfold bind at 1. rewrite js_or_true.
    unfold bind at 1. rewrite js_or_true. reflexivity.
Qed.

(** The response of a profile fetch, whatever the header. *)
Lemma me_response (env : Env) (req : Request) (st : State) :
  route_of req = Me ->
  snd (handle env req st) =
  if not_bearer (authorization req)
  then sendJSON 401 (detail "Not authenticated")
  else if printableV (lookup "email" (profiled uuid env st))
       then sendJSON 200 (profile (profiled uuid env st))
       else sendJSON 500 (detail "Internal server error").
Proof.
  intros Hroute. rewrite handleRequest_route, Hroute. cbn [handler_of]. unfold try_catch.
  destruct (not_bearer (authorization req)) eqn:Hnb.
  - now rewrite (me_rejected env req st Hnb).
  - rewrite (me_accepted env req st Hnb).
    now destruct (printableV (lookup "email" (profiled uuid env st))).
Qed.


Lemma reportable_profiled (env : Env) (st : State) :
  printableV (lookup "email" (profiled uuid env st)) = reportable (users st).
Proof. unfold profiled, reportable. now destruct (hd_error (users st)). Qed.


(** ** The handlers case by case *)

Ltac case_innermost :=
  match goal with
  | |- context [match ?x with _ => _ end] =>
      lazymatch x with
      | context [match _ with _ => _ end] => fail
      | _ => destruct x eqn:?
      end
  end.

Ltac step_handler :=
  unfold generateTokens, destructure, local_part, js_or, push, saveDB,
    randomUUID, find_user, first_user, console_log, get in *;
  unfold bind, ret, throw in *;
  repeat first
    [ progress cbn [fst snd users disk draws] in *
    | case_innermost ].

Lemma get_some_object (body : Json) (k : string) (v : Json) :
  get body k = Some v -> exists fields, body = JObj fields /\ lookup k fields = Some v.
Proof. destruct body; try discriminate. intros H. eexists; split; [reflexivity | exact H]. Qed.

Lemma signup_success (env : Env) (req : Request) (st : State)
      (body email password name : Json) :
  parseBody (raw_body req) = Some body ->
  get body "email" = Some email -> truthy email = true ->
  get body "password" = Some password -> truthy password = true ->
  display_name (get body "name") email = Some name ->
  let record := stored_record (uuid (draws st)) name email (now_iso env) in
  let tokens := issue uuid env (S (draws st)) in
  signup uuid env req st =
  (if printable email
   then Returned (sendJSON 200
                    [("user_id", Some (JStr (uuid (draws st))));
                     ("name", Some name);
                     ("email", Some email);
                     ("access_token", Some (JStr (access_token tokens)));
                     ("refresh_token", Some (JStr (refresh_token tokens)))])
   else Threw,
   mkState (users st ++ [record])
           (if write_ok env then Some (users st ++ [record])%list else disk st)
           (3 + draws st)).
Proof.
  intros Hparse Hemail Te Hpw Tp Hname record tokens.
  destruct (get_some_object _ _ _ Hemail) as [fields [-> Hle]].
  cbn [get] in Hpw, Hname.
  unfold signup. rewrite Hparse.
  unfold destructure, bind at 1, ret at 1. cbn [get].
  rewrite Hle, Hpw, Te, Tp. cbn [negb orb].
  unfold display_name in Hname.
  unfold bind at 1. unfold randomUUID at 1.
  unfold bind at 1.
  assert (Hjs : forall s, js_or (lookup "name" fields) (local_part email) s = (Returned name, s)).
  { intros s. unfold js_or, local_part.
    destruct (lookup "name" fields) as [j|].
    - destruct (truthy j); [now inversion Hname|].
      destruct email; try discriminate. now inversion Hname.
    - destruct email; try discriminate. now inversion Hname. }
  rewrite Hjs. unfold console_log, bind, push, saveDB, generateTokens, randomUUID, ret, throw.
  cbn [fst snd users disk draws printableV].
  now destruct (printable email).
Qed.

Lemma signup_missing (env : Env) (req : Request) (st : State) (body : Json) :
  parseBody (raw_body req) = Some body ->
  body <> JNull ->
  get body "email" = None \/ get body "password" = None ->
  signup uuid env req st = (Returned (sendJSON 422 field_required), st).
Proof.
  intros Hparse Hnull Hmiss. unfold signup. rewrite Hparse.
  assert (Hd : destructure body st = (Returned (get body), st))
    by (destruct body; try reflexivity; congruence).
  unfold bind. rewrite Hd.
  destruct Hmiss as [-> | ->]; [reflexivity|].
  now destruct (get body "email").
Qed.

Lemma signup_empty (env : Env) (req : Request) (st : State)
      (body email password : Json) :
  parseBody (raw_body req) = Some body ->
  get body "email" = Some email ->
  get body "password" = Some password ->
  truthy email = false \/ truthy password = false ->
  signup uuid env req st =
  (Returned (sendJSON 400 (detail "Email and password are required")), st).
Proof.
  intros Hparse He Hp Hfalsy. unfold signup. rewrite Hparse.
  destruct (get_some_object _ _ _ He) as [fields [-> Hle]].
  unfold destructure, bind, ret. rewrite He, Hp.
  destruct Hfalsy as [-> | ->]; [reflexivity|].
  now rewrite orb_true_r.
Qed.

Lemma signin_success (env : Env) (req : Request) (st : State)
      (body email password : Json) :
  parseBody (raw_body req) = Some body ->
  get body "email" = Some email -> truthy email = true ->
  get body "password" = Some password -> truthy password = true ->
  printable email = true ->
  signin uuid env req st =
  match find_by_email email (users st) with
  | Some u =>
      let tokens := issue uuid env (draws st) in
      (Returned (sendJSON 200
                   [("user_id", lookup "user_id" u);
                    ("access_token", Some (JStr (access_token tokens)));
                    ("refresh_token", Some (JStr (refresh_token tokens)));
                    ("token_type", Some (JStr "bearer"))]),
       bump 2 st)
  | None =>
      let tokens := issue uuid env (S (draws st)) in
      (Returned (sendJSON 200
                   [("user_id", Some (JStr (uuid (draws st))));
                    ("access_token", Some (JStr (access_token tokens)));
                    ("refresh_token", Some (JStr (refresh_token tokens)));
                    ("token_type", Some (JStr "bearer"))]),
       bump 3 st)
  end.
Proof.
  intros Hparse Hemail Te Hpw Tp Hlog.
  destruct (get_some_object _ _ _ Hemail) as [fields [-> Hle]].
  cbn [get] in Hpw.
  unfold signin. rewrite Hparse.
  unfold destructure, bind at 1, ret at 1. cbn [get].
  rewrite Hle, Hpw, Te, Tp. cbn [negb orb].
  unfold bind at 1, find_user at 1, find_by_email.
  cbn [fst snd].
  destruct (find (fun u => strict_eq (lookup "email" u) (Some email)) (users st)) as [u|];
    unfold console_log, bind, generateTokens, randomUUID, ret;
    cbn [fst snd users disk draws printableV]; rewrite Hlog; reflexivity.
Qed.


Lemma refresh_success (env : Env) (req : Request) (st : State) (body : Json) :
  parseBody (raw_body req) = Some body ->
  truthyV (get body "refresh_token") = true ->
  refresh uuid env req st =
  (Returned (sendJSON 200 (tokens_json (issue uuid env (draws st)))), bump 2 st).
Proof.
  intros Hparse Htruthy. unfold refresh. rewrite Hparse.
  destruct body; try discriminate.
  unfold destructure, bind, ret. cbn [get] in *. now rewrite Htruthy.
Qed.

(** ** Effects on the state *)

Lemma try_catch_state (h : Handler Response) (st : State) :
  fst (try_catch h st) = snd (h st).
Proof. unfold try_catch. now destruct (h st) as [[r|] st']. Qed.

Ltac close_kept := apply kept; cbn [users disk draws]; first [reflexivity | lia].

Lemma signup_effect (env : Env) (req : Request) (st : State) :
  effect uuid env st (snd (signup uuid env req st)).
Proof.
  unfold signup. step_handler.
  all: try close_kept.
  all: eapply added; cbn [users disk draws];
    try match goal with H : write_ok _ = _ |- _ => rewrite H end; reflexivity.
Qed.

Lemma signin_kept (env : Env) (req : Request) (st : State) :
  let st' := snd (signin uuid env req st) in
  users st' = users st /\ disk st' = disk st /\ draws st <= draws st'.
Proof.
  unfold signin. step_handler.
  all: repeat split; first [reflexivity | lia].
Qed.

Lemma refresh_kept (env : Env) (req : Request) (st : State) :
  let st' := snd (refresh uuid env req st) in
  users st' = users st /\ disk st' = disk st /\ draws st <= draws st'.
Proof.
  unfold refresh. step_handler.
  all: repeat split; first [reflexivity | lia].
Qed.

Lemma me_kept (env : Env) (req : Request) (st : State) :
  let st' := snd (me uuid env req st) in
  users st' = users st /\ disk st' = disk st /\ draws st <= draws st'.
Proof.
  unfold me. step_handler.
  all: repeat split; first [reflexivity | lia].
Qed.

Lemma handle_kept (env : Env) (req : Request) (st : State) :
  route_of req <> Signup ->
  let st' := fst (handle env req st) in
  users st' = users st /\ disk st' = disk st /\ draws st <= draws st'.
Proof.
  intros Hroute. cbv zeta.
  rewrite handleRequest_route, try_catch_state.
  destruct (route_of req); cbn [handler_of].
  - now repeat split.
  - now repeat split.
  - congruence.
  - apply signin_kept.
  - apply refresh_kept.
  - apply me_kept.
  - now repeat split.
Qed.

Lemma handle_effect (env : Env) (req : Request) (st : State) :
  effect uuid env st (fst (handle env req st)).
Proof.
  destruct (route_of req) eqn:Hroute.
  3: { rewrite handleRequest_route, try_catch_state, Hroute. apply signup_effect. }
  all: destruct (handle_kept env req st) as [Hu [Hd Hn]];
    [rewrite Hroute; discriminate | now apply kept].
Qed.

(** ** Reachable states *)

Lemma signup_record_mono (n m : nat) (u : UserRecord) :
  n <= m -> signup_record uuid n u -> signup_record uuid m u.
Proof.
  intros Hle (k & name & email & created & Hk & ->).
  exists k, name, email, created. split; [lia | reflexivity].
Qed.

Lemma records_mono (n m : nat) (us : list UserRecord) :
  n <= m -> Forall (signup_record uuid n) us -> Forall (signup_record uuid m) us.
Proof.
  intros Hle Hall. eapply Forall_impl; [|exact Hall].
  intros u. now apply signup_record_mono.
Qed.

Lemma records_append (n : nat) (us : list UserRecord)
      (name email : Json) (created : string) :
  Forall (signup_record uuid n) us ->
  Forall (signup_record uuid (3 + n)) (us ++ [stored_record (uuid n) name email created]).
Proof.
  intros Hall. apply Forall_app. split.
  - apply (records_mono n); [lia | exact Hall].
  - constructor; [|constructor].
    exists n, name, email, created. split; [lia | reflexivity].
Qed.

Lemma effect_state_ok (env : Env) (st st' : State) :
  effect uuid env st st' -> state_ok uuid st -> state_ok uuid st'.
Proof.
  intros Heff [Hu Hs]. unfold state_ok, snapshot in *.
  destruct Heff as [Eu Ed En | name email Eu Ed En].
  - rewrite Eu, Ed. split; eapply records_mono; eauto.
  - assert (Hnew : Forall (signup_record uuid (draws st')) (users st')).
    { rewrite Eu, En. now apply records_append. }
    split; [exact Hnew|]. rewrite Ed.
    destruct (write_ok env); [exact Hnew|].
    eapply records_mono; [|exact Hs]. lia.
Qed.

Lemma step_state (e : Event) (st : State) :
  fst (step uuid e st) =
  match e with
  | Serve env req => fst (handle env req st)
  | Restart env => loadDB env (mkState [] (disk st) (draws st))
  end.
Proof.
  destruct e as [env req | env]; [|reflexivity].
  cbn [step]. now destruct (handle env req st).
Qed.

(** Every run from a reachable state ends in a reachable state. *)
Lemma run_reachable (events : list Event) (st : State) :
  reachable uuid st -> reachable uuid (fst (run uuid events st)).
Proof.
  revert st. induction events as [|e events IH]; intros st Hreach; [exact Hreach|].
  cbn [run]. pose proof (reach_step uuid e st Hreach) as H1.
  destruct (step uuid e st) as [st1 out1]. cbn [fst] in H1.
  specialize (IH st1 H1). destruct (run uuid events st1) as [st2 out2]. exact IH.
Qed.

Lemma reachable_state_ok (st : State) : reachable uuid st -> state_ok uuid st.
Proof.
  induction 1 as [|e st _ IH].
  - split; constructor.
  - rewrite step_state. destruct e as [env req | env].
    + eapply effect_state_ok; [apply handle_effect | exact IH].
    + destruct IH as [_ Hs]. unfold state_ok, snapshot, loadDB, saveDB in *.
      cbn [users disk draws snd].
      destruct (disk st) as [us|]; cbn [users disk draws].
      * now split.
      * destruct (write_ok env); split; constructor.
Qed.

Lemma drawn_ids (n : nat) (us : list UserRecord) :
  Forall (signup_record uuid n) us ->
  forall v, In v (user_ids us) -> exists k, k < n /\ v = Some (JStr (uuid k)).
Proof.
  intros Hall v Hin. unfold user_ids in Hin.
  apply in_map_iff in Hin. destruct Hin as (u & <- & Hu).
  rewrite Forall_forall in Hall.
  destruct (Hall u Hu) as (k & name & email & created & Hk & ->).
  exists k. split; [exact Hk | reflexivity].
Qed.

(** An identifier drawn now or later is none of the stored ones. *)
Lemma fresh_id_not_stored (n m : nat) (us : list UserRecord) :
  Forall (signup_record uuid n) us -> n <= m ->
  ~ In (Some (JStr (uuid m))) (user_ids us).
Proof.
  intros Hall Hle Hin.
  destruct (drawn_ids n us Hall _ Hin) as (k & Hk & Heq).
  inversion Heq as [Huuid]. apply uuid_fresh in Huuid. lia.
Qed.

Lemma ids_unique_append (n : nat) (us : list UserRecord)
      (name email : Json) (created : string) :
  Forall (signup_record uuid n) us ->
  NoDup (user_ids us) ->
  NoDup (user_ids (us ++ [stored_record (uuid n) name email created])).
Proof.
  intros Hall Hnd. unfold user_ids. rewrite map_app.
  apply NoDup_app.
  - exact Hnd.
  - cbn [map]. constructor; [intros []|constructor].
  - intros v Hin1 Hin2. cbn [map In] in Hin2.
    destruct Hin2 as [<- | []].
    now apply (fresh_id_not_stored n n us Hall (le_n n)).
Qed.

Lemma effect_ids_unique (env : Env) (st st' : State) :
  effect uuid env st st' -> state_ok uuid st -> ids_unique st -> ids_unique st'.
Proof.
  intros Heff [Hu Hs] [Nu Ns]. unfold ids_unique, snapshot in *.
  destruct Heff as [Eu Ed En | name email Eu Ed En].
  - rewrite Eu, Ed. now split.
  - assert (Hnew : NoDup (user_ids (users st'))).
    { rewrite Eu. now apply ids_unique_append. }
    split; [exact Hnew|]. rewrite Ed.
    destruct (write_ok env); [exact Hnew | exact Ns].
Qed.

Lemma reachable_ids_unique (st : State) : reachable uuid st -> ids_unique st.
Proof.
  induction 1 as [|e st Hreach IH].
  - split; constructor.
  - rewrite step_state. destruct e as [env req | env].
    + eapply effect_ids_unique;
        [apply handle_effect | now apply reachable_state_ok | exact IH].
    + destruct IH as [_ Ns]. unfold ids_unique, snapshot, loadDB, saveDB in *.
      cbn [users disk draws snd].
      destruct (disk st) as [us|]; cbn [users disk draws].
      * now split.
      * destruct (write_ok env); split; constructor.
Qed.

(** ** Signin and signup responses *)

Lemma parse_object (req : Request) (fields : list (string * Json)) :
  raw_body req = JsonText (JObj fields) ->
  parseBody (raw_body req) = Some (JObj fields).
Proof. now intros ->. Qed.

Lemma found_identified (st : State) (email : Json) (u : UserRecord) :
  identified (users st) ->
  find_by_email email (users st) = Some u ->
  exists id : Json, lookup "user_id" u = Some id.
Proof.
  intros Hall Hfind. apply find_some in Hfind. destruct Hfind as [Hin _].
  unfold identified in Hall. rewrite Forall_forall in Hall. exact (Hall u Hin).
Qed.

Lemma reachable_identified (st : State) :
  reachable uuid st -> identified (users st).
Proof.
  intros Hreach. destruct (reachable_state_ok st Hreach) as [Hall _].
  eapply Forall_impl; [|exact Hall].
  intros u (k & name & email & created & _ & ->). now exists (JStr (uuid k)).
Qed.

Lemma signin_schema (env : Env) (req : Request) (st : State) :
  identified (users st) ->
  let r := snd (try_catch (signin uuid env req) st) in
  status r = 200%Z ->
  body_keys r = ["user_id"; "access_token"; "refresh_token"; "token_type"].
Proof.
  intros Hok. unfold try_catch, signin. step_handler.
  all: cbn [status sendJSON snd]; try (intros H; discriminate H).
  all: intros _.
  - destruct (found_identified st j0 l Hok Heqo0) as (id & ->). reflexivity.
  - reflexivity.
Qed.

Lemma signup_schema (env : Env) (req : Request) (st : State) :
  let r := snd (try_catch (signup uuid env req) st) in
  status r = 200%Z ->
  body_keys r = ["user_id"; "name"; "email"; "access_token"; "refresh_token"].
Proof.
  unfold try_catch, signup. step_handler.
  all: cbn [status sendJSON snd]; try (intros H; discriminate H).
  all: intros _; reflexivity.
Qed.

(** C1. A signin whose body carries a non-empty (truthy) email and a
    non-empty (truthy) password is answered 200 with a [user_id], whether
    or not a record with that email exists (the stored records defining
    their [user_id], as every record of a reachable state does); the
    password is never looked at: any other signin with the same email and
    a non-empty password has exactly the same outcome.  The email is one
    that the handler can write to its log: it converts to a string, as
    every string does. *)
Theorem signin_accepts_any_credentials :
  forall (env : Env) (req : Request) (st : State)
         (fields : list (string * Json)) (email password : Json),
    identified (users st) ->
    route_of req = Signin ->
    raw_body req = JsonText (JObj fields) ->
    lookup "email" fields = Some email -> truthy email = true ->
    printable email = true ->
    lookup "password" fields = Some password -> truthy password = true ->
    let r := snd (handle env req st) in
    status r = 200%Z /\
    (exists id : Json, body_field "user_id" r = Some id) /\
    (forall (req' : Request) (fields' : list (string * Json)) (password' : Json),
        route_of req' = Signin ->
        raw_body req' = JsonText (JObj fields') ->
        lookup "email" fields' = Some email ->
        lookup "password" fields' = Some password' -> truthy password' = true ->
        handle env req' st = handle env req st) /\
    (forall st0 : State, reachable uuid st0 -> identified (users st0)) /\
    (forall e : string, printable (JStr e) = true).
Proof.
  intros env req st fields email password Hids Hroute Hbody He Te Hlog Hp Tp r.
  assert (Hsignin : forall (q : Request) (fs : list (string * Json)) (pw : Json),
             route_of q = Signin -> raw_body q = JsonText (JObj fs) ->
             lookup "email" fs = Some email ->
             lookup "password" fs = Some pw -> truthy pw = true ->
             handle env q st =
             try_catch (fun s =>
               match find_by_email email (users s) with
               | Some u =>
                   (Returned (sendJSON 200
                      [("user_id", lookup "user_id" u);
                       ("access_token", Some (JStr (access_token (issue uuid env (draws s)))));
                       ("refresh_token", Some (JStr (refresh_token (issue uuid env (draws s)))));
                       ("token_type", Some (JStr "bearer"))]),
                    bump 2 s)
               | None =>
                   (Returned (sendJSON 200
                      [("user_id", Some (JStr (uuid (draws s))));
                       ("access_token", Some (JStr (access_token (issue uuid env (S (draws s))))));
                       ("refresh_token", Some (JStr (refresh_token (issue uuid env (S (draws s))))));
                       ("token_type", Some (JStr "bearer"))]),
                    bump 3 s)
               end) st).
  { intros q fs pw Hq Hb Hqe Hqp Tq.
    rewrite handleRequest_route, Hq. cbn [handler_of]. unfold try_catch.
    now rewrite (signin_success env q st (JObj fs) email pw
                   (parse_object _ _ Hb) Hqe Te Hqp Tq Hlog). }
  subst r. rewrite (Hsignin req fields password Hroute Hbody He Hp Tp).
  split; [|split; [|split; [|split; [|reflexivity]]]].
  - unfold try_catch. now destruct (find_by_email email (users st)).
  - unfold try_catch. destruct (find_by_email email (users st)) as [u|] eqn:Hfind.
    + destruct (found_identified st email u Hids Hfind) as (id & Hid).
      exists id. cbn [snd]. unfold body_field, body_fields, sendJSON. cbn [body].
      now rewrite Hid.
    + exists (JStr (uuid (draws st))). reflexivity.
  - intros req' fields' password' Hroute' Hbody' He' Hp' Tp'.
    apply (Hsignin req' fields' password' Hroute' Hbody' He' Hp' Tp').
  - exact reachable_identified.
Qed.

(** C3. A successful signin response holds exactly the keys [user_id],
    [access_token], [refresh_token] and [token_type], hence neither [name]
    nor [email] (the stored records defining their [user_id], as every
    record of a reachable state does); a successful signup response holds
    [user_id], [name], [email], [access_token] and [refresh_token]. *)
Theorem response_schemas :
  forall (env : Env) (req : Request) (st : State),
    identified (users st) ->
    let r := snd (handle env req st) in
    status r = 200%Z ->
    (route_of req = Signin ->
     body_keys r = ["user_id"; "access_token"; "refresh_token"; "token_type"] /\
     ~ In "name" (body_keys r) /\ ~ In "email" (body_keys r)) /\
    (route_of req = Signup ->
     body_keys r = ["user_id"; "name"; "email"; "access_token"; "refresh_token"]) /\
    (forall st0 : State, reachable uuid st0 -> identified (users st0)).
Proof.
  intros env req st Hids r Hstatus. subst r.
  rewrite handleRequest_route in *.
  split; [|split; [|exact reachable_identified]];
    intros Hroute; rewrite Hroute in *; cbn [handler_of] in *.
  - rewrite (signin_schema env req st Hids Hstatus).
    split; [reflexivity|].
    split; cbn [In]; intros H; repeat destruct H as [H | H]; try discriminate H; exact H.
  - exact (signup_schema env req st Hstatus).
Qed.

(** ** Frame *)

Lemma ghost_user_id (env : Env) (req : Request) (st : State)
      (fields : list (string * Json)) (email : Json) (id : Json) :
  raw_body req = JsonText (JObj fields) ->
  lookup "email" fields = Some email ->
  find_by_email email (users st) = None ->
  body_field "user_id" (snd (try_catch (signin uuid env req) st)) = Some id ->
  id = JStr (uuid (draws st)).
Proof.
  intros Hbody He Hnone. unfold try_catch, signin.
  rewrite (parse_object _ _ Hbody).
  unfold destructure, bind at 1, ret at 1. cbn [get]. rewrite He.
  destruct (lookup "password" fields) as [password|]; [|discriminate].
  destruct (negb (truthy email) || negb (truthy password)); [discriminate|].
  unfold bind at 1, find_user at 1. fold (find_by_email email (users st)).
  rewrite Hnone. unfold console_log, bind, generateTokens, randomUUID, ret, throw.
  cbn [fst snd users disk draws printableV].
  destruct (printable email); [|discriminate].
  intros H. now inversion H.
Qed.

(** C2. Only signup changes the collection or the snapshot: every
    request routed elsewhere (signin, refresh, profile fetch, health,
    preflight, unmatched) leaves both as they were, the request-target
    being in origin form with a plain path, so that its pathname is the
    path it spells; and the [user_id] that signin makes up for an email
    without a record is in neither of them afterwards. *)
Theorem only_signup_mutates :
  forall (env : Env) (req : Request) (st : State),
    let st' := fst (handle env req st) in
    let r := snd (handle env req st) in
    (Url.origin_form (url req) = true ->
     route_of req <> Signup -> users st' = users st /\ disk st' = disk st) /\
    (reachable uuid st ->
     route_of req = Signin ->
     forall (fields : list (string * Json)) (email : Json),
       raw_body req = JsonText (JObj fields) ->
       lookup "email" fields = Some email ->
       find_by_email email (users st) = None ->
       forall id : Json,
         body_field "user_id" r = Some id ->
         ~ In (Some id) (user_ids (users st')) /\
         ~ In (Some id) (user_ids (snapshot st'))).
Proof.
  intros env req st st' r. split.
  - intros _ Hroute. destruct (handle_kept env req st Hroute) as [Hu [Hd _]].
    now split.
  - intros Hreach Hroute fields email Hbody He Hnone id Hid.
    assert (Hns : route_of req <> Signup) by (rewrite Hroute; discriminate).
    destruct (handle_kept env req st Hns) as [Hu [Hd _]].
    fold st' in Hu, Hd. unfold snapshot. rewrite Hu, Hd.
    subst r. rewrite handleRequest_route, Hroute in Hid. cbn [handler_of] in Hid.
    rewrite (ghost_user_id env req st fields email id Hbody He Hnone Hid).
    destruct (reachable_state_ok st Hreach) as [Hall Hsnap].
    split.
    + now apply (fresh_id_not_stored (draws st) (draws st) (users st) Hall).
    + now apply (fresh_id_not_stored (draws st) (draws st) (snapshot st) Hsnap).
Qed.

(** ** Signin after signup *)

Lemma find_app_some {A : Type} (f : A -> bool) (l l' : list A) (x : A) :
  find f l = Some x -> find f (l ++ l') = Some x.
Proof.
  induction l as [|a l IH]; [discriminate|].
  cbn [find app]. destruct (f a); [trivial | exact IH].
Qed.

Lemma find_app_none {A : Type} (f : A -> bool) (l l' : list A) :
  find f l = None -> find f (l ++ l') = find f l'.
Proof.
  induction l as [|a l IH]; [reflexivity|].
  cbn [find app]. destruct (f a); [discriminate | exact IH].
Qed.

Lemma effect_grows (env : Env) (st st' : State) :
  effect uuid env st st' -> exists extra, users st' = (users st ++ extra)%list.
Proof.
  intros [Eu _ _ | name email Eu _ _].
  - exists []. now rewrite app_nil_r.
  - eexists. exact Eu.
Qed.

(** Within one process lifetime the collection only grows at its end. *)
Lemma lifetime_grows (events : list Event) (st : State) :
  same_lifetime events = true ->
  exists extra, users (fst (run uuid events st)) = (users st ++ extra)%list.
Proof.
  revert st. induction events as [|e events IH]; intros st Hlife.
  - exists []. cbn. now rewrite app_nil_r.
  - cbn [same_lifetime forallb] in Hlife. apply andb_prop in Hlife.
    destruct Hlife as [He Hrest].
    destruct e as [env req | env]; [|discriminate].
    cbn [run].
    destruct (step uuid (Serve env req) st) as [st1 out1] eqn:Hstep.
    assert (Hst1 : st1 = fst (handle env req st)).
    { pose proof (step_state (Serve env req) st) as H. rewrite Hstep in H. exact H. }
    destruct (IH st1 Hrest) as [extra2 H2].
    destruct (run uuid events st1) as [st2 out2]. cbn [fst] in *.
    destruct (effect_grows env st st1) as [extra1 H1].
    { rewrite Hst1. apply handle_effect. }
    exists (extra1 ++ extra2)%list. now rewrite H2, H1, app_assoc.
Qed.

Lemma display_name_string (name : Value) (e : string) :
  exists chosen, display_name name (JStr e) = Some chosen.
Proof.
  unfold display_name. destruct name as [j|]; [destruct (truthy j)|]; eauto.
Qed.

Lemma string_truthy (e : string) : e <> "" -> truthy (JStr e) = true.
Proof.
  intros Hne. cbn [truthy]. destruct (String.eqb_spec e ""); [contradiction | reflexivity].
Qed.

(** C4. When a signup creates the first record for an email, every later
    signin with that email in the same process lifetime, whatever was
    served in between, returns the [user_id] that the signup returned. *)
Theorem signin_returns_signup_user_id :
  forall (env : Env) (req : Request) (st : State)
         (fields : list (string * Json)) (e : string) (password : Json),
    route_of req = Signup ->
    raw_body req = JsonText (JObj fields) ->
    lookup "email" fields = Some (JStr e) -> e <> "" ->
    lookup "password" fields = Some password -> truthy password = true ->
    find_by_email (JStr e) (users st) = None ->
    let st1 := fst (handle env req st) in
    let r1 := snd (handle env req st) in
    status r1 = 200%Z /\
    (exists id : string, body_field "user_id" r1 = Some (JStr id)) /\
    (forall (events : list Event) (env' : Env) (req' : Request)
            (fields' : list (string * Json)) (password' : Json),
        same_lifetime events = true ->
        route_of req' = Signin ->
        raw_body req' = JsonText (JObj fields') ->
        lookup "email" fields' = Some (JStr e) ->
        lookup "password" fields' = Some password' -> truthy password' = true ->
        let r2 := snd (handle env' req' (fst (run uuid events st1))) in
        status r2 = 200%Z /\ body_field "user_id" r2 = body_field "user_id" r1).
Proof.
  intros env req st fields e password Hroute Hbody He Hne Hp Tp Hnone st1 r1.
  destruct (display_name_string (lookup "name" fields) e) as [name Hname].
  pose proof (signup_success env req st (JObj fields) (JStr e) password name
                (parse_object _ _ Hbody) He (string_truthy e Hne) Hp Tp Hname) as Hsignup.
  cbv zeta in Hsignup. cbn [printable] in Hsignup.
  assert (Hhandle : handle env req st = try_catch (signup uuid env req) st).
  { now rewrite handleRequest_route, Hroute. }
  unfold try_catch in Hhandle. rewrite Hsignup in Hhandle.
  subst st1 r1. rewrite Hhandle. cbn [fst snd].
  split; [reflexivity|]. split; [exists (uuid (draws st)); reflexivity|].
  intros events env' req' fields' password' Hlife Hroute' Hbody' He' Hp' Tp'.
  set (record := stored_record (uuid (draws st)) name (JStr e) (now_iso env)) in *.
  set (st1 := mkState _ _ _) in *.
  destruct (lifetime_grows events st1 Hlife) as [extra Hgrow].
  set (st2 := fst (run uuid events st1)) in *.
  assert (Hfind : find_by_email (JStr e) (users st2) = Some record).
  { rewrite Hgrow. unfold find_by_email. apply find_app_some.
    subst st1. cbn [users]. rewrite find_app_none by exact Hnone.
    cbn [find record stored_record lookup String.eqb Ascii.eqb Bool.eqb strict_eq].
    now rewrite String.eqb_refl. }
  rewrite handleRequest_route, Hroute'. cbn [handler_of]. unfold try_catch.
  rewrite (signin_success env' req' st2 (JObj fields') (JStr e) password'
             (parse_object _ _ Hbody') He' (string_truthy e Hne) Hp' Tp' eq_refl).
  rewrite Hfind. split; reflexivity.
Qed.

(** ** Signup validation *)

(** C5 (amended). Signup validates a parsed body in two tiers: if [email]
    or [password] is absent from it, the answer is 422 with a structured
    detail list of exactly one entry, whose location tag is
    [["body", "field"]] and whose message is "field required", however many
    fields are missing; if both are present and one is empty (falsy, as the
    empty string is), the answer is 400 with the flat message "Email and
    password are required". *)
Theorem signup_two_tier_validation :
  forall (env : Env) (req : Request) (st : State) (body : Json),
    route_of req = Signup ->
    parseBody (raw_body req) = Some body ->
    body <> JNull ->
    let r := snd (handle env req st) in
    (get body "email" = None \/ get body "password" = None ->
     status r = 422%Z /\ detail_entries r = [generic_entry]) /\
    (forall email password : Json,
        get body "email" = Some email ->
        get body "password" = Some password ->
        truthy email = false \/ truthy password = false ->
        status r = 400%Z /\
        body_fields r = [("detail", JStr "Email and password are required")]) /\
    truthy (JStr "") = false.
Proof.
  intros env req st body Hroute Hparse Hnull r. subst r.
  rewrite handleRequest_route, Hroute. cbn [handler_of]. unfold try_catch.
  split; [|split; [|reflexivity]].
  - intros Hmiss.
    rewrite (signup_missing env req st body Hparse Hnull Hmiss).
    split; reflexivity.
  - intros email password He Hp Hfalsy.
    rewrite (signup_empty env req st body email password Hparse He Hp Hfalsy).
    split; reflexivity.
Qed.

(** ** Profile fetch: the response fields *)

Lemma lookup_stringify (k : string) (literal : list (string * Value)) :
  lookup k (stringify literal) = lookup_literal k literal.
Proof.
  induction literal as [|[k' [j|]] rest IH]; cbn [stringify lookup lookup_literal].
  - reflexivity.
  - now rewrite IH.
  - rewrite IH. now destruct (String.eqb k k').
Qed.

Lemma body_field_sendJSON (k : string) (code : Z) (literal : list (string * Value)) :
  body_field k (sendJSON code literal) = lookup_literal k literal.
Proof. unfold body_field, body_fields, sendJSON. cbn [body]. apply lookup_stringify. Qed.

Lemma option_eta (v : Value) :
  match v with Some j => Some j | None => None end = v.
Proof. now destruct v. Qed.




(** ** Issued tokens *)

Lemma signup_token (env : Env) (req : Request) (st : State) (tok : Json) :
  body_field "access_token" (snd (try_catch (signup uuid env req) st)) = Some tok ->
  issued_between uuid (draws st) (draws (fst (try_catch (signup uuid env req) st))) (Some tok).
Proof.
  unfold try_catch, signup, invalid_json. step_handler.
  all: rewrite body_field_sendJSON;
    cbn [lookup_literal String.eqb Ascii.eqb Bool.eqb detail field_required];
    try discriminate.
  all: intros H; inversion H; eexists; cbn [access_token];
    split; [|split; [|reflexivity]]; lia.
Qed.

Lemma signin_token (env : Env) (req : Request) (st : State) (tok : Json) :
  body_field "access_token" (snd (try_catch (signin uuid env req) st)) = Some tok ->
  issued_between uuid (draws st) (draws (fst (try_catch (signin uuid env req) st))) (Some tok).
Proof.
  unfold try_catch, signin, invalid_json. step_handler.
  all: rewrite body_field_sendJSON;
    cbn [lookup_literal String.eqb Ascii.eqb Bool.eqb detail];
    try discriminate.
  all: intros H; inversion H; eexists; cbn [access_token];
    split; [|split; [|reflexivity]]; lia.
Qed.

Lemma refresh_token_drawn (env : Env) (req : Request) (st : State) (tok : Json) :
  body_field "access_token" (snd (try_catch (refresh uuid env req) st)) = Some tok ->
  issued_between uuid (draws st) (draws (fst (try_catch (refresh uuid env req) st))) (Some tok).
Proof.
  unfold try_catch, refresh, invalid_json. step_handler.
  all: rewrite body_field_sendJSON;
    cbn [lookup_literal String.eqb Ascii.eqb Bool.eqb detail tokens_json];
    try discriminate.
  all: intros H; inversion H; eexists; cbn [access_token];
    split; [|split; [|reflexivity]]; lia.
Qed.

Lemma me_no_token (env : Env) (req : Request) (st : State) :
  body_field "access_token" (snd (try_catch (me uuid env req) st)) = None.
Proof.
  unfold try_catch.
  destruct (not_bearer (authorization req)) eqn:Hnb.
  - now rewrite (me_rejected env req st Hnb).
  - rewrite (me_accepted env req st Hnb).
    destruct (printableV (lookup "email" (profiled uuid env st))); cbn [snd];
      now rewrite body_field_sendJSON.
Qed.

Lemma handle_token (env : Env) (req : Request) (st : State) (tok : Json) :
  body_field "access_token" (snd (handle env req st)) = Some tok ->
  issued_between uuid (draws st) (draws (fst (handle env req st))) (Some tok).
Proof.
  rewrite handleRequest_route.
  destruct (route_of req); cbn [handler_of]; try discriminate.
  - apply signup_token.
  - apply signin_token.
  - apply refresh_token_drawn.
  - now rewrite me_no_token.
Qed.

Lemma handle_draws (env : Env) (req : Request) (st : State) :
  draws st <= draws (fst (handle env req st)).
Proof.
  destruct (handle_effect env req st) as [_ _ H | ? ? _ _ H]; lia.
Qed.

Lemma step_draws (e : Event) (st : State) :
  draws st <= draws (fst (step uuid e st)).
Proof.
  rewrite step_state. destruct e as [env req | env].
  - apply handle_draws.
  - unfold loadDB, saveDB. cbn [disk users draws snd].
    destruct (disk st); cbn [draws]; lia.
Qed.

Lemma run_draws (events : list Event) (st : State) :
  draws st <= draws (fst (run uuid events st)).
Proof.
  revert st. induction events as [|e events IH]; intros st; [cbn; lia|].
  cbn [run]. pose proof (step_draws e st) as H1.
  destruct (step uuid e st) as [st1 out1]. cbn [fst] in H1.
  specialize (IH st1). revert IH.
  destruct (run uuid events st1) as [st2 out2]. cbn [fst]. lia.
Qed.

(** Every access token sent during a run was made from an identifier
    drawn during that run. *)
Lemma run_tokens (events : list Event) (st : State) (v : Value) :
  In v (access_tokens (snd (run uuid events st))) ->
  v = None \/ issued_between uuid (draws st) (draws (fst (run uuid events st))) v.
Proof.
  revert st. induction events as [|e events IH]; intros st; [intros []|].
  cbn [run].
  pose proof (step_draws e st) as Hd1.
  pose proof (step_state e st) as Hs1.
  destruct (step uuid e st) as [st1 out1] eqn:Hstep. cbn [fst] in *.
  specialize (IH st1).
  pose proof (run_draws events st1) as Hd2.
  revert IH Hd2.
  destruct (run uuid events st1) as [st2 out2]. cbn [fst snd]. intros IH Hd2.
  unfold access_tokens in *. rewrite map_app, in_app_iff.
  intros [Hin | Hin].
  - destruct e as [env req | env].
    + cbn [step] in Hstep. destruct (handle env req st) as [st' r] eqn:Hh.
      inversion Hstep; subst st1 out1. cbn [map In] in Hin.
      destruct Hin as [<- | []].
      destruct (body_field "access_token" r) as [tok|] eqn:Htok; [right | now left].
      pose proof (handle_token env req st tok) as Ht. rewrite Hh in Ht. cbn [fst snd] in Ht.
      destruct (Ht Htok) as (k & Hlo & Hhi & Hk).
      cbn [fst] in *. exists k. repeat split; [exact Hlo | lia | exact Hk].
    + cbn [step] in Hstep. inversion Hstep; subst. destruct Hin.
  - destruct (IH Hin) as [Hnone | (k & Hlo & Hhi & Hk)]; [now left | right].
    exists k. repeat split; [lia | exact Hhi | exact Hk].
Qed.

(** ** Refresh *)


(** ** Uniqueness in the collection *)

Lemma parsed_with_email (raw : RawBody) (fields : list (string * Json)) (email : Json) :
  parseBody raw = Some (JObj fields) ->
  lookup "email" fields = Some email ->
  raw = JsonText (JObj fields).
Proof.
  destruct raw as [|v|]; cbn [parseBody]; intros H He.
  - inversion H; subst. discriminate He.
  - now inversion H.
  - discriminate H.
Qed.

Lemma signup_appends (env : Env) (req : Request) (st : State) :
  let st' := snd (signup uuid env req st) in
  users st' = users st \/
  exists (fields : list (string * Json)) (name email : Json),
    raw_body req = JsonText (JObj fields) /\
    lookup "email" fields = Some email /\
    users st' = (users st ++ [stored_record (uuid (draws st)) name email (now_iso env)])%list.
Proof.
  unfold signup. step_handler.
  all: try (left; reflexivity).
  all: right;
    match goal with
    | H : parseBody _ = Some (JObj ?fs), He : lookup "email" ?fs = Some ?e |- _ =>
        exists fs; eexists; exists e;
        split; [exact (parsed_with_email _ _ _ H He) | split; [exact He | reflexivity]]
    end.
Qed.

Lemma emails_append (us : list UserRecord) (id : string) (name email : Json) (created : string) :
  emails (us ++ [stored_record id name email created]) = (emails us ++ [Some email])%list.
Proof. unfold emails. now rewrite map_app. Qed.

(** Requests whose email is a string keep the stored emails strings,
    so the email that profile fetch logs stays one that converts. *)
Lemma string_emails_kept (env : Env) (req : Request) (st : State) :
  string_emails (users st) ->
  (forall (fields : list (string * Json)) (email : Json),
      raw_body req = JsonText (JObj fields) ->
      lookup "email" fields = Some email ->
      exists e : string, email = JStr e) ->
  string_emails (users (fst (handle env req st))).
Proof.
  intros Hall Htyped.
  destruct (route_of req) eqn:Hroute.
  3: { rewrite handleRequest_route, try_catch_state, Hroute. cbn [handler_of].
       destruct (signup_appends env req st) as [-> | (fields & name & email & Hb & He & ->)];
         [exact Hall|].
       destruct (Htyped fields email Hb He) as [e ->].
       apply Forall_app. split; [exact Hall|].
       constructor; [now exists e | constructor]. }
  all: destruct (handle_kept env req st) as [-> _];
    [rewrite Hroute; discriminate | exact Hall].
Qed.

(** C8 (amended). In every reachable state no two stored records, in the
    collection or in the snapshot, carry the same [user_id], and every
    record carries one; ghost records never enter the collection.  Emails
    stay pairwise distinct under every operation (the request-target being
    in origin form with a plain path, so that its pathname is the path it
    spells) except a signup whose email already has a record: such a
    signup is accepted and appends a second record with that email. *)
Theorem user_ids_stay_unique :
  (forall st : State,
      reachable uuid st ->
      NoDup (user_ids (users st)) /\
      NoDup (user_ids (snapshot st)) /\
      Forall (fun u => exists id : string, lookup "user_id" u = Some (JStr id)) (users st)) /\
  (forall (env : Env) (req : Request) (st : State),
      Url.origin_form (url req) = true ->
      NoDup (emails (users st)) ->
      (route_of req = Signup ->
       forall (fields : list (string * Json)) (email : Json),
         raw_body req = JsonText (JObj fields) ->
         lookup "email" fields = Some email ->
         ~ In (Some email) (emails (users st))) ->
      NoDup (emails (users (fst (handle env req st))))).
Proof.
  split.
  - intros st Hreach.
    destruct (reachable_ids_unique st Hreach) as [Hu Hs].
    destruct (reachable_state_ok st Hreach) as [Hall _].
    repeat split; [exact Hu | exact Hs |].
    eapply Forall_impl; [|exact Hall].
    intros u (k & name & email & created & _ & ->). now exists (uuid k).
  - intros env req st _ Hnd Hnew.
    destruct (route_of req) eqn:Hroute.
    3: { rewrite handleRequest_route, try_catch_state, Hroute. cbn [handler_of].
         destruct (signup_appends env req st) as [-> | (fields & name & email & Hb & He & ->)];
           [exact Hnd|].
         rewrite emails_append. apply NoDup_app; [exact Hnd | |].
         - constructor; [intros [] | constructor].
         - intros v Hin1 Hin2. cbn [In] in Hin2. destruct Hin2 as [<- | []].
           exact (Hnew eq_refl fields email Hb He Hin1). }
    all: destruct (handle_kept env req st) as [-> _];
      [rewrite Hroute; discriminate | exact Hnd].
Qed.


(** * Further properties of [server.js] *)

(** ** Bodies that cannot be used *)

(** X1. On signup, signin and refresh a body that is not JSON is answered
    400 with detail "Invalid JSON", and the JSON text [null] is answered 500
    with detail "Internal server error"; neither changes the state. *)
Theorem unusable_body_rejected :
  forall (env : Env) (req : Request) (st : State),
    reads_body req ->
    (raw_body req = Malformed ->
     handle env req st = (st, sendJSON 400 (detail "Invalid JSON"))) /\
    (raw_body req = JsonText JNull ->
     handle env req st = (st, sendJSON 500 (detail "Internal server error"))).
Proof.
  intros env req st Hreads. rewrite handleRequest_route.
  split; intros Hbody;
    destruct Hreads as [-> | [-> | ->]]; cbn [handler_of];
    unfold try_catch, signup, signin, refresh; rewrite Hbody; reflexivity.
Qed.

(** X2. Signin validates a parsed body in two tiers with one message: if
    [email] or [password] is absent the answer is 422, if both are present
    and one is empty (falsy) the answer is 400, each with the flat detail
    "Email and password are required" and no change of state. *)
Theorem signin_two_tier_validation :
  forall (env : Env) (req : Request) (st : State) (body : Json),
    route_of req = Signin ->
    parseBody (raw_body req) = Some body ->
    body <> JNull ->
    (get body "email" = None \/ get body "password" = None ->
     handle env req st = (st, sendJSON 422 (detail "Email and password are required"))) /\
    (forall email password : Json,
        get body "email" = Some email ->
        get body "password" = Some password ->
        truthy email = false \/ truthy password = false ->
        handle env req st = (st, sendJSON 400 (detail "Email and password are required"))).
Proof.
  intros env req st body Hroute Hparse Hnull.
  rewrite handleRequest_route, Hroute. cbn [handler_of].
  unfold try_catch, signin. rewrite Hparse.
  assert (Hd : destructure body st = (Returned (get body), st))
    by (destruct body; try reflexivity; congruence).
  split.
  - intros Hmiss. unfold bind at 1. rewrite Hd. cbv beta iota.
    destruct Hmiss as [He | Hp]; [now rewrite He|]. rewrite Hp.
    now destruct (get body "email").
  - intros email password He Hp Hfalsy.
    unfold bind at 1. rewrite Hd. cbv beta iota. rewrite He, Hp.
    destruct Hfalsy as [Hf | Hf]; rewrite Hf; [reflexivity|].
    now rewrite orb_true_r.
Qed.

(** ** Signup: the display name and the internal error *)

Lemma before_splits (c : ascii) (s : string) :
  (before c s = s \/ exists rest, s = before c s ++ String c rest) /\
  ~ In c (list_ascii_of_string (before c s)).
Proof.
  induction s as [|a s [IH1 IH2]]; cbn [before].
  - split; [now left | intros []].
  - destruct (Ascii.eqb_spec a c) as [-> | Hne].
    + split; [right; now exists s | intros []].
    + split.
      * destruct IH1 as [-> | [rest Hrest]]; [now left | right].
        exists rest. cbn [append]. now rewrite <- Hrest.
      * cbn [list_ascii_of_string In]. intros [H | H]; [contradiction | now apply IH2].
Qed.

(** X3. A signup without a usable [name] (absent or falsy) whose email is
    a non-empty string is answered 200 and names the user after the part
    of the email before its first "@" (the whole email if it has none): the
    response and the stored record carry that name, which itself holds no
    "@". *)
Theorem signup_default_name :
  forall (env : Env) (req : Request) (st : State)
         (fields : list (string * Json)) (e : string) (password : Json),
    route_of req = Signup ->
    raw_body req = JsonText (JObj fields) ->
    lookup "email" fields = Some (JStr e) -> e <> "" ->
    lookup "password" fields = Some password -> truthy password = true ->
    truthyV (lookup "name" fields) = false ->
    let r := snd (handle env req st) in
    let name := before "@" e in
    status r = 200%Z /\
    body_field "name" r = Some (JStr name) /\
    body_field "email" r = Some (JStr e) /\
    (exists record : UserRecord,
        users (fst (handle env req st)) = (users st ++ [record])%list /\
        lookup "name" record = Some (JStr name) /\
        lookup "email" record = Some (JStr e)) /\
    (name = e \/ exists rest : string, e = name ++ "@" ++ rest) /\
    ~ In "@"%char (list_ascii_of_string name).
Proof.
  intros env req st fields e password Hroute Hbody He Hne Hp Tp Hname r name.
  assert (Hchosen : display_name (lookup "name" fields) (JStr e) = Some (JStr name)).
  { unfold display_name. destruct (lookup "name" fields) as [j|]; [|reflexivity].
    cbn [truthyV] in Hname. now rewrite Hname. }
  pose proof (signup_success env req st (JObj fields) (JStr e) password (JStr name)
                (parse_object _ _ Hbody) He (string_truthy e Hne) Hp Tp Hchosen) as Hs.
  cbv zeta in Hs. cbn [printable] in Hs.
  subst r. rewrite handleRequest_route, Hroute. cbn [handler_of]. unfold try_catch.
  rewrite Hs. cbn [fst snd users].
  destruct (before_splits "@" e) as [Hsplit Hno].
  repeat split; try reflexivity; try exact Hno.
  - eexists. split; [reflexivity|]. split; reflexivity.
  - exact Hsplit.
Qed.

(** X4. A signup whose email is truthy but not a string, and which has no
    usable [name], fails inside the handler: the answer is 500 with detail
    "Internal server error", and neither the collection nor the snapshot
    changes. *)
Theorem signup_non_string_email_fails :
  forall (env : Env) (req : Request) (st : State)
         (fields : list (string * Json)) (email password : Json),
    route_of req = Signup ->
    raw_body req = JsonText (JObj fields) ->
    lookup "email" fields = Some email -> truthy email = true ->
    (forall s : string, email <> JStr s) ->
    lookup "password" fields = Some password -> truthy password = true ->
    truthyV (lookup "name" fields) = false ->
    snd (handle env req st) = sendJSON 500 (detail "Internal server error") /\
    users (fst (handle env req st)) = users st /\
    disk (fst (handle env req st)) = disk st.
Proof.
  intros env req st fields email password Hroute Hbody He Te Hns Hp Tp Hname.
  assert (Hthrows : signup uuid env req st
                    = (Threw, mkState (users st) (disk st) (S (draws st)))).
  { unfold signup. rewrite (parse_object _ _ Hbody).
    unfold destructure, bind at 1, ret at 1. cbn [get]. rewrite He, Hp, Te, Tp.
    cbn [negb orb]. unfold bind at 1, randomUUID at 1. unfold bind at 1.
    assert (Hjs : forall s, js_or (lookup "name" fields) (local_part email) s = (Threw, s)).
    { intros s. unfold js_or, local_part.
      destruct (lookup "name" fields) as [j|]; cbn [truthyV] in Hname.
      - rewrite Hname. destruct email; try reflexivity. now destruct (Hns s0).
      - destruct email; try reflexivity. now destruct (Hns s0). }
    now rewrite Hjs. }
  rewrite handleRequest_route, Hroute. cbn [handler_of].
  unfold try_catch. rewrite Hthrows. repeat split; reflexivity.
Qed.

Lemma parsed_null (raw : RawBody) :
  parseBody raw = Some JNull -> raw = JsonText JNull.
Proof. destruct raw as [|v|]; cbn [parseBody]; intros H; now inversion H. Qed.

(** X5. For a request-target in origin form with a plain path, the
    handler fails internally in four situations only: the body is the JSON
    text [null] on signup, signin or refresh; a signup carries a truthy
    email that is not a string together with no usable [name]; a signup or
    signin carries a truthy email that does not convert to a string for
    the log; or profile fetch finds a first record whose email does not
    convert to a string.  No other request is answered 500. *)
Theorem internal_error_only_when :
  forall (env : Env) (req : Request) (st : State),
    Url.origin_form (url req) = true ->
    status (snd (handle env req st)) = 500%Z ->
    (reads_body req /\ raw_body req = JsonText JNull) \/
    (route_of req = Signup /\
     exists (fields : list (string * Json)) (email : Json),
       raw_body req = JsonText (JObj fields) /\
       lookup "email" fields = Some email /\
       truthy email = true /\
       (forall s : string, email <> JStr s) /\
       truthyV (lookup "name" fields) = false) \/
    ((route_of req = Signup \/ route_of req = Signin) /\
     exists (fields : list (string * Json)) (email : Json),
       raw_body req = JsonText (JObj fields) /\
       lookup "email" fields = Some email /\
       truthy email = true /\
       printable email = false) \/
    (route_of req = Me /\ reportable (users st) = false).
Proof.
  intros env req st _. rewrite handleRequest_route.
  destruct (route_of req) eqn:Hroute; cbn [handler_of]; try discriminate.
  - unfold try_catch, signup, invalid_json. step_handler.
    all: cbn [snd status sendJSON]; try discriminate; intros _.
    all: try (left; split; [left; exact Hroute | now apply parsed_null]).
    all: right;
      match goal with
      | H : negb (truthy ?e) || _ = false |- _ =>
          apply orb_false_elim in H; destruct H as [H _];
          apply negb_false_iff in H
      end.
    all: first
      [ (* the log line throws *)
        right; left; split; [now left|];
        match goal with
        | H : parseBody _ = Some (JObj ?fs), He : lookup "email" ?fs = Some ?e,
          Hlog : printableV (Some ?e) = false |- _ =>
            exists fs, e; split; [exact (parsed_with_email _ _ _ H He)|];
            split; [exact He|]; split; [assumption | exact Hlog]
        end
      | (* [split] is not a method of the email *)
        left; split; [reflexivity|];
        match goal with
        | H : parseBody _ = Some (JObj ?fs), He : lookup "email" ?fs = Some ?e |- _ =>
            exists fs, e; split; [exact (parsed_with_email _ _ _ H He)|];
            split; [exact He|]
        end;
        split; [assumption|]; split; [intros s; discriminate|];
        match goal with
        | H : lookup "name" _ = _ |- _ => rewrite H
        end; cbn [truthyV]; assumption || reflexivity ].
  - unfold try_catch, signin, invalid_json. step_handler.
    all: cbn [snd status sendJSON]; try discriminate; intros _.
    all: try (left; split; [right; left; exact Hroute | now apply parsed_null]).
    all: right; right; left; split; [now right|];
      match goal with
      | H : negb (truthy ?e) || _ = false |- _ =>
          apply orb_false_elim in H; destruct H as [H _];
          apply negb_false_iff in H
      end;
      match goal with
      | H : parseBody _ = Some (JObj ?fs), He : lookup "email" ?fs = Some ?e,
        Hlog : printableV (Some ?e) = false |- _ =>
          exists fs, e; split; [exact (parsed_with_email _ _ _ H He)|];
          split; [exact He|]; split; [assumption | exact Hlog]
      end.
  - unfold try_catch, refresh, invalid_json. step_handler.
    all: cbn [snd status sendJSON]; try discriminate; intros _.
    all: left; split; [right; right; exact Hroute | now apply parsed_null].
  - unfold try_catch.
    destruct (not_bearer (authorization req)) eqn:Hnb.
    + rewrite (me_rejected env req st Hnb). discriminate.
    + rewrite (me_accepted env req st Hnb), reportable_profiled.
      destruct (reportable (users st)); [discriminate|].
      intros _. right; right; right. now split.
Qed.

(** ** The snapshot and restarts *)

Lemma effect_persisted (env : Env) (st st' : State) :
  effect uuid env st st' -> write_ok env = true -> persisted st -> persisted st'.
Proof.
  unfold persisted, snapshot.
  intros [Eu Ed _ | name email Eu Ed _] Hw Hp.
  - now rewrite Eu, Ed.
  - now rewrite Ed, Hw.
Qed.

Lemma restart_persisted (env : Env) (st : State) :
  persisted st -> users (restart env st) = users st /\ persisted (restart env st).
Proof.
  unfold persisted, snapshot, restart, loadDB, saveDB. cbn [users disk draws snd].
  destruct (disk st) as [us|]; cbn [users disk]; intros Hp.
  - now split.
  - rewrite <- Hp. split; [reflexivity|]. now destruct (write_ok env).
Qed.

(** X6. While the snapshot file can be written, it holds exactly the
    collection after every request, so a restart brings back the same
    collection, and profile fetch answers after the restart as it did
    before. *)
Theorem restart_restores_collection :
  forall (env env' : Env) (req : Request) (st : State),
    persisted st ->
    write_ok env = true ->
    let st1 := fst (handle env req st) in
    persisted st1 /\
    users (restart env' st1) = users st1 /\
    persisted (restart env' st1) /\
    (forall (env2 : Env) (q : Request),
        route_of q = Me ->
        snd (handle env2 q (restart env' st1)) = snd (handle env2 q st1)).
Proof.
  intros env env' req st Hp Hw st1.
  assert (Hp1 : persisted st1)
    by exact (effect_persisted env st st1 (handle_effect env req st) Hw Hp).
  destruct (restart_persisted env' st1 Hp1) as [Hu Hp2].
  repeat split; try assumption.
  intros env2 q Hq. rewrite !me_response by exact Hq.
  unfold profiled. rewrite Hu.
  assert (Hd : draws (restart env' st1) = draws st1).
  { unfold restart, loadDB, saveDB. cbn [disk draws users snd]. now destruct (disk st1). }
  now rewrite Hd.
Qed.

(** X7. A signup whose snapshot write fails is still answered 200 and
    its record joins the collection, but the snapshot keeps the old
    collection: after a restart the record is gone and its email has no
    record again. *)
Theorem failed_write_forgets_signup :
  forall (env env' : Env) (req : Request) (st : State)
         (fields : list (string * Json)) (e : string) (password : Json),
    persisted st ->
    write_ok env = false ->
    route_of req = Signup ->
    raw_body req = JsonText (JObj fields) ->
    lookup "email" fields = Some (JStr e) -> e <> "" ->
    lookup "password" fields = Some password -> truthy password = true ->
    find_by_email (JStr e) (users st) = None ->
    let st1 := fst (handle env req st) in
    status (snd (handle env req st)) = 200%Z /\
    (exists record : UserRecord,
        users st1 = (users st ++ [record])%list /\
        find_by_email (JStr e) (users st1) = Some record) /\
    snapshot st1 = users st /\
    users (restart env' st1) = users st /\
    find_by_email (JStr e) (users (restart env' st1)) = None.
Proof.
  intros env env' req st fields e password Hpers Hw Hroute Hbody He Hne Hp Tp Hnone st1.
  destruct (display_name_string (lookup "name" fields) e) as [name Hname].
  pose proof (signup_success env req st (JObj fields) (JStr e) password name
                (parse_object _ _ Hbody) He (string_truthy e Hne) Hp Tp Hname) as Hs.
  cbv zeta in Hs. cbn [printable] in Hs. rewrite Hw in Hs.
  assert (Hhandle : handle env req st = try_catch (signup uuid env req) st)
    by now rewrite handleRequest_route, Hroute.
  unfold try_catch in Hhandle. rewrite Hs in Hhandle.
  subst st1. rewrite Hhandle. cbn [fst snd].
  set (record := stored_record (uuid (draws st)) name (JStr e) (now_iso env)).
  assert (Hrestart : users (restart env' (mkState (users st ++ [record]) (disk st) (3 + draws st)))
                     = users st).
  { unfold persisted, snapshot in Hpers.
    unfold restart, loadDB, saveDB. cbn [users disk draws snd].
    destruct (disk st) as [us|]; cbn [users]; [exact Hpers|].
    rewrite <- Hpers. now destruct (write_ok env'). }
  split; [reflexivity|]. split; [|split; [|split]].
  - exists record. cbn [users]. split; [reflexivity|].
    unfold find_by_email. rewrite find_app_none by exact Hnone.
    cbn [find record stored_record lookup String.eqb Ascii.eqb Bool.eqb strict_eq].
    now rewrite String.eqb_refl.
  - exact Hpers.
  - exact Hrestart.
  - now rewrite Hrestart.
Qed.

(** X8. In every reachable state the snapshot file holds a leading part
    of the collection: it never holds a record that the running process
    does not have, nor records in another order. *)
Theorem snapshot_is_prefix_of_collection :
  forall st : State,
    reachable uuid st ->
    exists extra : list UserRecord, users st = (snapshot st ++ extra)%list.
Proof.
  induction 1 as [|e st _ [extra IH]].
  - now exists [].
  - rewrite step_state. destruct e as [env req | env].
    + destruct (handle_effect env req st) as [Eu Ed _ | name email Eu Ed _];
        unfold snapshot in *; rewrite Ed.
      * exists extra. now rewrite Eu.
      * destruct (write_ok env).
        -- exists []. now rewrite app_nil_r.
        -- eexists. rewrite Eu, IH, <- app_assoc. reflexivity.
    + unfold snapshot, loadDB, saveDB. cbn [users disk draws snd].
      destruct (disk st) as [us|]; cbn [users disk].
      * exists []. now rewrite app_nil_r.
      * exists []. now destruct (write_ok env).
Qed.

(** ** The collection within one process lifetime *)

(** X9. Within one process lifetime the collection only grows at its
    end: whatever is served, the records present before are still there in
    the same order, so the record that signin finds for an email stays
    the one it finds. *)
Theorem collection_append_only :
  forall (events : list Event) (st : State),
    same_lifetime events = true ->
    let st' := fst (run uuid events st) in
    (exists extra : list UserRecord, users st' = (users st ++ extra)%list) /\
    (forall (email : Json) (u : UserRecord),
        find_by_email email (users st) = Some u ->
        find_by_email email (users st') = Some u).
Proof.
  intros events st Hlife st'.
  destruct (lifetime_grows events st Hlife) as [extra Hgrow]. fold st' in Hgrow.
  split; [now exists extra|].
  intros email u Hfind. rewrite Hgrow. now apply find_app_some.
Qed.

(** X10. Once the collection has a first record, profile fetch with any
    bearer header is about that record for the rest of the process
    lifetime, however many users sign up later: it reports the record when
    the record's email converts to a string for the log, and is answered
    500 every time when it does not. *)
Theorem profile_fetch_reports_first_record :
  forall (events : list Event) (env : Env) (req : Request) (st : State) (u : UserRecord),
    same_lifetime events = true ->
    hd_error (users st) = Some u ->
    route_of req = Me ->
    not_bearer (authorization req) = false ->
    snd (handle env req (fst (run uuid events st)))
    = if printableV (lookup "email" u)
      then sendJSON 200 (profile u)
      else sendJSON 500 (detail "Internal server error").
Proof.
  intros events env req st u Hlife Hhd Hroute Hnb.
  rewrite (me_response env req _ Hroute), Hnb.
  destruct (lifetime_grows events st Hlife) as [extra Hgrow].
  unfold profiled. rewrite Hgrow.
  destruct (users st) as [|u0 rest]; [discriminate Hhd|].
  cbn [hd_error app] in *. now inversion Hhd.
Qed.

(** ** Response framing *)



(** ** Issued tokens, continued *)

Lemma prefix_append (p s : string) : String.prefix p (p ++ s) = true.
Proof.
  induction p as [|a p IH]; cbn [append String.prefix].
  - now destruct s.
  - destruct (ascii_dec a a); [exact IH | contradiction].
Qed.

(** X12. A successful refresh sends exactly [access_token],
    [refresh_token], [token_type] and [expires_at]; the two tokens start
    with "mock_access_token_" and "mock_refresh_token_", and [expires_at],
    in whole seconds, lies within the last second before one hour after the
    request. *)
Theorem refresh_token_pair_shape :
  forall (env : Env) (req : Request) (st : State) (body : Json),
    route_of req = Refresh ->
    parseBody (raw_body req) = Some body ->
    truthyV (get body "refresh_token") = true ->
    let r := snd (handle env req st) in
    body_keys r = ["access_token"; "refresh_token"; "token_type"; "expires_at"] /\
    (exists a f : string,
        body_field "access_token" r = Some (JStr a) /\
        String.prefix "mock_access_token_" a = true /\
        body_field "refresh_token" r = Some (JStr f) /\
        String.prefix "mock_refresh_token_" f = true /\
        a <> f) /\
    (exists x : Z,
        body_field "expires_at" r = Some (JNum x) /\
        (now_ms env + 3599000 < x * 1000 <= now_ms env + 3600000)%Z).
Proof.
  intros env req st body Hroute Hparse Hsub r. subst r.
  rewrite handleRequest_route, Hroute. cbn [handler_of]. unfold try_catch.
  rewrite (refresh_success env req st body Hparse Hsub). cbn [snd].
  split; [reflexivity|]. split.
  - do 2 eexists. repeat split; try reflexivity.
    + apply prefix_append.
    + apply prefix_append.
    + cbn [issue access_token refresh_token append]. discriminate.
  - eexists. split; [reflexivity|].
    cbn [issue expires_at].
    pose proof (Z.div_mod (now_ms env) 1000 ltac:(lia)) as Hdm.
    pose proof (Z.mod_pos_bound (now_ms env) 1000 ltac:(lia)) as Hmod.
    lia.
Qed.

Lemma issued_in (rs : list Response) (t : Json) :
  In t (issued_tokens rs) -> In (Some t) (access_tokens rs).
Proof.
  unfold issued_tokens, access_tokens. rewrite in_flat_map.
  intros (r & Hr & Hin). apply in_map_iff. exists r. split; [|exact Hr].
  destruct (body_field "access_token" r) as [t'|]; [|destruct Hin].
  destruct Hin as [-> | []]. reflexivity.
Qed.

Lemma issued_app (rs rs' : list Response) :
  issued_tokens (rs ++ rs') = (issued_tokens rs ++ issued_tokens rs')%list.
Proof. unfold issued_tokens. apply flat_map_app. Qed.

(** X13. No access token is sent twice: over any run of the process,
    restarts included, the access tokens of the responses to signup, signin
    and refresh are pairwise distinct. *)
Theorem access_tokens_never_repeat :
  forall (events : list Event) (st : State),
    NoDup (issued_tokens (snd (run uuid events st))).
Proof.
  induction events as [|e events IH]; intros st; [constructor|].
  cbn [run].
  pose proof (step_state e st) as Hs1.
  destruct (step uuid e st) as [st1 out1] eqn:Hstep. cbn [fst] in Hs1.
  specialize (IH st1).
  pose proof (run_tokens events st1) as Hlater.
  destruct (run uuid events st1) as [st2 out2]. cbn [fst snd] in *.
  rewrite issued_app.
  destruct e as [env req | env].
  - cbn [step] in Hstep. destruct (handle env req st) as [st' r] eqn:Hh.
    inversion Hstep; subst st' out1. clear Hstep.
    cbn [issued_tokens flat_map]. rewrite app_nil_r.
    destruct (body_field "access_token" r) as [tok|] eqn:Htok; [|exact IH].
    cbn [app]. constructor; [|exact IH].
    intros Hin. apply issued_in in Hin.
    destruct (Hlater _ Hin) as [Hnone | (k & Hlo & _ & Hk)]; [discriminate Hnone|].
    pose proof (handle_token env req st tok) as Ht. rewrite Hh in Ht. cbn [fst snd] in Ht.
    destruct (Ht Htok) as (k' & _ & Hhi' & Hk').
    rewrite Hk' in Hk. inversion Hk as [Heq]. apply uuid_fresh in Heq. lia.
  - cbn [step] in Hstep. inversion Hstep; subst. exact IH.
Qed.

(** ** Identities *)

(** X14. The identifier that signin makes up for an email without a
    record is not kept: two signins in a row with that email (one that
    converts to a string for the log, as every string does) are both
    answered 200, with different [user_id]s, and the email still has no
    record. *)
Theorem ghost_user_id_not_stable :
  forall (env env' : Env) (req req' : Request) (st : State)
         (fields fields' : list (string * Json)) (email password password' : Json),
    route_of req = Signin -> raw_body req = JsonText (JObj fields) ->
    route_of req' = Signin -> raw_body req' = JsonText (JObj fields') ->
    lookup "email" fields = Some email -> lookup "email" fields' = Some email ->
    truthy email = true -> printable email = true ->
    lookup "password" fields = Some password -> truthy password = true ->
    lookup "password" fields' = Some password' -> truthy password' = true ->
    find_by_email email (users st) = None ->
    let st1 := fst (handle env req st) in
    let r1 := snd (handle env req st) in
    let r2 := snd (handle env' req' st1) in
    status r1 = 200%Z /\ status r2 = 200%Z /\
    body_field "user_id" r1 <> body_field "user_id" r2 /\
    find_by_email email (users (fst (handle env' req' st1))) = None.
Proof.
  intros env env' req req' st fields fields' email password password'
         Hroute Hbody Hroute' Hbody' He He' Te Hlog Hp Tp Hp' Tp' Hnone st1 r1 r2.
  assert (H1 : handle env req st = try_catch (signin uuid env req) st)
    by now rewrite handleRequest_route, Hroute.
  unfold try_catch in H1.
  rewrite (signin_success env req st (JObj fields) email password
             (parse_object _ _ Hbody) He Te Hp Tp Hlog), Hnone in H1.
  subst st1 r1 r2. rewrite H1. cbn [fst snd].
  assert (H2 : handle env' req' (bump 3 st) = try_catch (signin uuid env' req') (bump 3 st))
    by now rewrite handleRequest_route, Hroute'.
  unfold try_catch in H2.
  rewrite (signin_success env' req' (bump 3 st) (JObj fields') email password'
             (parse_object _ _ Hbody') He' Te Hp' Tp' Hlog) in H2.
  cbn [bump users] in H2. rewrite Hnone in H2. rewrite H2. cbn [fst snd bump users].
  repeat split; try reflexivity; [|exact Hnone].
  rewrite !body_field_sendJSON.
  cbn [lookup_literal String.eqb Ascii.eqb Bool.eqb draws].
  intros Heq. inversion Heq as [Hid]. apply uuid_fresh in Hid. lia.
Qed.

(** X15. A signup with an email that already has a record is answered
    200 with a new [user_id], but signin keeps returning the [user_id] of
    the older record, which differs from the new one. *)
Theorem repeated_signup_keeps_first_identity :
  forall (env env' : Env) (req req' : Request) (st : State)
         (fields fields' : list (string * Json)) (e : string)
         (password password' : Json) (u : UserRecord),
    reachable uuid st ->
    route_of req = Signup -> raw_body req = JsonText (JObj fields) ->
    route_of req' = Signin -> raw_body req' = JsonText (JObj fields') ->
    lookup "email" fields = Some (JStr e) -> lookup "email" fields' = Some (JStr e) ->
    e <> "" ->
    lookup "password" fields = Some password -> truthy password = true ->
    lookup "password" fields' = Some password' -> truthy password' = true ->
    find_by_email (JStr e) (users st) = Some u ->
    let st1 := fst (handle env req st) in
    let r1 := snd (handle env req st) in
    let r2 := snd (handle env' req' st1) in
    status r1 = 200%Z /\ status r2 = 200%Z /\
    body_field "user_id" r2 = lookup "user_id" u /\
    body_field "user_id" r2 <> body_field "user_id" r1.
Proof.
  intros env env' req req' st fields fields' e password password' u
         Hreach Hroute Hbody Hroute' Hbody' He He' Hne Hp Tp Hp' Tp' Hfind st1 r1 r2.
  destruct (display_name_string (lookup "name" fields) e) as [name Hname].
  pose proof (signup_success env req st (JObj fields) (JStr e) password name
                (parse_object _ _ Hbody) He (string_truthy e Hne) Hp Tp Hname) as Hs.
  cbv zeta in Hs. cbn [printable] in Hs.
  assert (H1 : handle env req st = try_catch (signup uuid env req) st)
    by now rewrite handleRequest_route, Hroute.
  unfold try_catch in H1. rewrite Hs in H1.
  subst st1 r1 r2. rewrite H1. cbn [fst snd].
  set (st1 := mkState _ _ _).
  assert (Hfind1 : find_by_email (JStr e) (users st1) = Some u).
  { subst st1. cbn [users]. now apply find_app_some. }
  assert (H2 : handle env' req' st1 = try_catch (signin uuid env' req') st1)
    by now rewrite handleRequest_route, Hroute'.
  unfold try_catch in H2.
  rewrite (signin_success env' req' st1 (JObj fields') (JStr e) password'
             (parse_object _ _ Hbody') He' (string_truthy e Hne) Hp' Tp' eq_refl), Hfind1 in H2.
  rewrite H2. cbn [snd].
  destruct (reachable_state_ok st Hreach) as [Hall _].
  assert (Hin : In u (users st)) by (apply find_some in Hfind; tauto).
  rewrite Forall_forall in Hall.
  destruct (Hall u Hin) as (k & nm & em & created & Hk & Hu).
  assert (Hid : lookup "user_id" u = Some (JStr (uuid k))) by now rewrite Hu.
  rewrite !body_field_sendJSON.
  cbn [lookup_literal String.eqb Ascii.eqb Bool.eqb]. rewrite Hid.
  repeat split; try reflexivity.
  intros Heq. inversion Heq as [Hkk]. apply uuid_fresh in Hkk. lia.
Qed.

(** ** An email that cannot be logged *)

(** X27. A signup whose email is truthy but does not convert to a string
    (an object with a [toString] property of its own), sent with a usable
    name, is stored and then fails: the record joins the collection and
    the snapshot, and the answer is 500 with detail "Internal server
    error".  If the collection was empty, this record is the one that
    profile fetch is about, so every profile fetch with a bearer header in
    the rest of the process lifetime is answered 500 as well. *)
Theorem unloggable_signup_stored_then_fails :
  forall (env : Env) (req : Request) (st : State)
         (fields : list (string * Json)) (email password name : Json),
    route_of req = Signup -> raw_body req = JsonText (JObj fields) ->
    lookup "email" fields = Some email -> truthy email = true ->
    printable email = false ->
    lookup "password" fields = Some password -> truthy password = true ->
    lookup "name" fields = Some name -> truthy name = true ->
    let st1 := fst (handle env req st) in
    let record := stored_record (uuid (draws st)) name email (now_iso env) in
    snd (handle env req st) = sendJSON 500 (detail "Internal server error") /\
    users st1 = (users st ++ [record])%list /\
    disk st1 = (if write_ok env then Some (users st1) else disk st) /\
    (users st = [] ->
     forall (events : list Event) (env' : Env) (q : Request),
       same_lifetime events = true ->
       route_of q = Me -> not_bearer (authorization q) = false ->
       snd (handle env' q (fst (run uuid events st1)))
       = sendJSON 500 (detail "Internal server error")).
Proof.
  intros env req st fields email password name
         Hroute Hbody He Te Hlog Hp Tp Hn Tn st1 record.
  assert (Hname : display_name (get (JObj fields) "name") email = Some name).
  { unfold display_name. cbn [get]. now rewrite Hn, Tn. }
  pose proof (signup_success env req st (JObj fields) email password name
                (parse_object _ _ Hbody) He Te Hp Tp Hname) as Hs.
  cbv zeta in Hs. rewrite Hlog in Hs.
  assert (Hhandle : handle env req st = try_catch (signup uuid env req) st)
    by now rewrite handleRequest_route, Hroute.
  unfold try_catch in Hhandle. rewrite Hs in Hhandle.
  subst st1. rewrite Hhandle. cbn [fst snd users disk]. fold record.
  split; [reflexivity|]. split; [reflexivity|]. split; [reflexivity|].
  intros Hempty events env' q Hlife Hq Hnb.
  rewrite (me_response env' q _ Hq), Hnb.
  destruct (lifetime_grows events
              (mkState (users st ++ [record])
                       (if write_ok env then Some (users st ++ [record])%list else disk st)
                       (3 + draws st)) Hlife) as [extra Hgrow].
  unfold profiled. rewrite Hgrow. cbn [users]. rewrite Hempty.
  cbn [app hd_error record stored_record lookup String.eqb Ascii.eqb Bool.eqb printableV].
  now rewrite Hlog.
Qed.

(** X28. A signin whose email is truthy but does not convert to a string
    fails at its log line, whatever the password and the collection: the
    answer is 500 with detail "Internal server error", and neither the
    collection nor the snapshot changes. *)
Theorem unloggable_signin_fails :
  forall (env : Env) (req : Request) (st : State)
         (fields : list (string * Json)) (email password : Json),
    route_of req = Signin -> raw_body req = JsonText (JObj fields) ->
    lookup "email" fields = Some email -> truthy email = true ->
    printable email = false ->
    lookup "password" fields = Some password -> truthy password = true ->
    snd (handle env req st) = sendJSON 500 (detail "Internal server error") /\
    users (fst (handle env req st)) = users st /\
    disk (fst (handle env req st)) = disk st.
Proof.
  intros env req st fields email password Hroute Hbody He Te Hlog Hp Tp.
  assert (Hthrows : exists n, signin uuid env req st = (Threw, bump n st)).
  { unfold signin. rewrite (parse_object _ _ Hbody).
    unfold destructure, bind at 1, ret at 1. cbn [get]. rewrite He, Hp, Te, Tp.
    cbn [negb orb]. unfold bind at 1, find_user at 1. cbn [fst snd].
    destruct (find (fun u => strict_eq (lookup "email" u) (Some email)) (users st));
      [exists 2 | exists 3];
      unfold console_log, bind, generateTokens, randomUUID, ret, throw;
      cbn [fst snd users disk draws printableV]; rewrite Hlog; reflexivity. }
  destruct Hthrows as [n Hthrows].
  rewrite handleRequest_route, Hroute. cbn [handler_of].
  unfold try_catch. rewrite Hthrows. repeat split; reflexivity.
Qed.

(** * Properties of [mock-auth-server-standalone.js] *)

Ltac route_standalone Hm Hu :=
  unfold Standalone.handleRequest, Standalone.dispatch;
  rewrite Hm, Hu;
  cbn [String.eqb Ascii.eqb Bool.eqb andb].

Lemma stringify_literal (fields : list (string * Json)) :
  stringify (Standalone.literal fields) = fields.
Proof.
  induction fields as [|[k v] rest IH]; [reflexivity|].
  cbn [Standalone.literal map fst snd stringify].
  fold (Standalone.literal rest). now rewrite IH.
Qed.

(** X16. The standalone server swallows a body that is not JSON: the
    request is handled exactly as if it had no body, so signup, signin and
    refresh answer it 422, never 400. *)
Theorem standalone_malformed_body_as_empty :
  forall (env : Env) (req : Request) (st : State),
    raw_body req = Malformed ->
    Standalone.handleRequest uuid env req st
    = Standalone.handleRequest uuid env
        (mkRequest (method req) (url req) (authorization req) EmptyBody) st /\
    (method req = "POST" ->
     url req = "/api/auth/signup" \/ url req = "/api/auth/signin" \/
     url req = "/api/auth/refresh" ->
     status (snd (Standalone.handleRequest uuid env req st)) = 422%Z /\
     fst (Standalone.handleRequest uuid env req st) = st).
Proof.
  intros env req st Hbody. split.
  - unfold Standalone.handleRequest, Standalone.dispatch,
      Standalone.signup, Standalone.signin, Standalone.refresh, Standalone.me.
    cbn [method url authorization raw_body]. now rewrite Hbody.
  - intros Hm [Hu | [Hu | Hu]]; route_standalone Hm Hu;
      unfold try_catch, Standalone.signup, Standalone.signin, Standalone.refresh;
      rewrite Hbody; split; reflexivity.
Qed.

(** X17. The standalone signup has one validation tier: whenever [email]
    or [password] is absent or empty (falsy) in a parsed body, the answer
    is 422 with a one-entry detail list that always points at
    [["body", "email"]], and nothing is stored. *)
Theorem standalone_signup_single_validation_tier :
  forall (env : Env) (req : Request) (st : State) (fields : list (string * Json)),
    method req = "POST" -> url req = "/api/auth/signup" ->
    raw_body req = JsonText (JObj fields) ->
    truthyV (lookup "email" fields) = false \/ truthyV (lookup "password" fields) = false ->
    Standalone.handleRequest uuid env req st
    = (st, sendJSON 422 Standalone.email_required) /\
    detail_entries (sendJSON 422 Standalone.email_required)
    = [JObj [("loc", JArr [JStr "body"; JStr "email"]);
             ("msg", JStr "field required");
             ("type", JStr "value_error.missing")]].
Proof.
  intros env req st fields Hm Hu Hbody Hfalsy. split; [|reflexivity].
  route_standalone Hm Hu. unfold try_catch, Standalone.signup. rewrite Hbody.
  cbn [Standalone.parseBody]. unfold destructure, bind, ret. cbn [get].
  destruct (lookup "email" fields) as [email|], (lookup "password" fields) as [password|];
    cbn [truthyV] in Hfalsy; try reflexivity.
  destruct Hfalsy as [-> | ->]; [reflexivity | now rewrite orb_true_r].
Qed.

(** X18. A standalone signup with a truthy email and password always
    stores a record, whatever the type of the email: the record appended
    (and written to the snapshot when the write succeeds) holds [user_id],
    [name] and [email] only, the name being the one given, or "New User"
    when none is usable.  When the email converts to a string for the log,
    the answer is 200 with exactly [user_id], [name], [email],
    [access_token], [refresh_token] and [token_type]; when it does not, the
    answer is 500 although the record is stored. *)
Theorem standalone_signup_response :
  forall (env : Env) (req : Request) (st : State)
         (fields : list (string * Json)) (email password : Json),
    method req = "POST" -> url req = "/api/auth/signup" ->
    raw_body req = JsonText (JObj fields) ->
    lookup "email" fields = Some email -> truthy email = true ->
    lookup "password" fields = Some password -> truthy password = true ->
    let r := snd (Standalone.handleRequest uuid env req st) in
    let st' := fst (Standalone.handleRequest uuid env req st) in
    let name := match lookup "name" fields with
                | Some j => if truthy j then j else JStr "New User"
                | None => JStr "New User"
                end in
    users st' = (users st ++ [[("user_id", JStr (uuid (draws st)));
                               ("name", name); ("email", email)]])%list /\
    disk st' = (if write_ok env then Some (users st') else disk st) /\
    (printable email = true ->
     status r = 200%Z /\
     body_keys r = ["user_id"; "name"; "email"; "access_token"; "refresh_token"; "token_type"] /\
     body_field "name" r = Some name /\
     body_field "email" r = Some email /\
     body_field "token_type" r = Some (JStr "bearer")) /\
    (printable email = false ->
     r = sendJSON 500 (detail "Internal server error")).
Proof.
  intros env req st fields email password Hm Hu Hbody He Te Hp Tp r st' name.
  subst r st'. route_standalone Hm Hu.
  assert (Hs : Standalone.signup uuid env req st =
               (if printable email
                then Returned (sendJSON 200 (Standalone.literal
                  [("user_id", JStr (uuid (draws st))); ("name", name); ("email", email);
                   ("access_token", JStr ("mock_access_token_" ++ uuid (S (draws st))));
                   ("refresh_token", JStr ("mock_refresh_token_" ++ uuid (S (S (draws st)))));
                   ("token_type", JStr "bearer")]))
                else Threw,
                mkState (users st ++ [[("user_id", JStr (uuid (draws st)));
                                        ("name", name); ("email", email)]])
                        (if write_ok env
                         then Some (users st ++ [[("user_id", JStr (uuid (draws st)));
                                                   ("name", name); ("email", email)]])%list
                         else disk st)
                        (3 + draws st))).
  { unfold Standalone.signup. rewrite Hbody. cbn [Standalone.parseBody].
    unfold destructure, bind at 1, ret at 1. cbn [get]. rewrite He, Hp, Te, Tp.
    cbn [negb orb]. unfold bind at 1, randomUUID at 1. unfold bind at 1.
    assert (Hjs : forall s, js_or (lookup "name" fields) (ret (JStr "New User")) s
                            = (Returned name, s)).
    { intros s. subst name. unfold js_or.
      destruct (lookup "name" fields) as [j|]; [destruct (truthy j)|]; reflexivity. }
    rewrite Hjs.
    unfold console_log, bind, push, saveDB, Standalone.generateTokens, randomUUID, ret, throw.
    cbn [fst snd users disk draws printableV].
    now destruct (printable email). }
  unfold try_catch. rewrite Hs.
  destruct (printable email); cbn [fst snd users disk].
  - split; [reflexivity|]. split; [reflexivity|]. split; [|discriminate].
    intros _. unfold body_keys, body_field, body_fields, sendJSON. cbn [body status].
    rewrite stringify_literal. repeat split; reflexivity.
  - split; [reflexivity|]. split; [reflexivity|]. split; [discriminate|].
    now intros _.
Qed.

Lemma contains_query_differs (target route : string) :
  In "?"%char (list_ascii_of_string target) ->
  ~ In "?"%char (list_ascii_of_string route) ->
  String.eqb target route = false.
Proof.
  intros Hin Hnot. destruct (String.eqb_spec target route) as [-> | _]; [contradiction | reflexivity].
Qed.

(** X19. The standalone server compares the whole request-target with
    its route paths: any target that contains a "?" is answered 404 with
    detail "Not found" and no change of state, whatever the method (other
    than OPTIONS) and the path before the query. *)
Theorem standalone_query_string_unrouted :
  forall (env : Env) (req : Request) (st : State),
    method req <> "OPTIONS" ->
    In "?"%char (list_ascii_of_string (url req)) ->
    Standalone.handleRequest uuid env req st = (st, sendJSON 404 (detail "Not found")).
Proof.
  intros env req st Hm Hin.
  unfold Standalone.handleRequest, Standalone.dispatch.
  destruct (String.eqb_spec (method req) "OPTIONS"); [contradiction|].
  rewrite !(contains_query_differs (url req)); try exact Hin.
  - rewrite !andb_false_r. reflexivity.
  - cbn. intuition discriminate.
  - cbn. intuition discriminate.
  - cbn. intuition discriminate.
  - cbn. intuition discriminate.
  - cbn. intuition discriminate.
Qed.

Lemma standalone_signin_kept (env : Env) (req : Request) (st : State) :
  let st' := snd (Standalone.signin uuid env req st) in
  users st' = users st /\ disk st' = disk st.
Proof.
  unfold Standalone.signin, Standalone.generateTokens. step_handler.
  all: split; reflexivity.
Qed.

Lemma standalone_refresh_kept (env : Env) (req : Request) (st : State) :
  let st' := snd (Standalone.refresh uuid env req st) in
  users st' = users st /\ disk st' = disk st.
Proof.
  unfold Standalone.refresh, Standalone.generateTokens. step_handler.
  all: split; reflexivity.
Qed.

Lemma standalone_me_kept (env : Env) (req : Request) (st : State) :
  let st' := snd (Standalone.me uuid env req st) in
  users st' = users st /\ disk st' = disk st.
Proof.
  unfold Standalone.me. step_handler.
  all: split; reflexivity.
Qed.

(** X20. In the standalone server only POST /api/auth/signup changes the
    collection or the snapshot: every other request leaves both as they
    were. *)
Theorem standalone_only_signup_mutates :
  forall (env : Env) (req : Request) (st : State),
    ~ (method req = "POST" /\ url req = "/api/auth/signup") ->
    let st' := fst (Standalone.handleRequest uuid env req st) in
    users st' = users st /\ disk st' = disk st.
Proof.
  intros env req st Hnot. cbv zeta.
  unfold Standalone.handleRequest, Standalone.dispatch.
  destruct (String.eqb (method req) "OPTIONS"); [now split|].
  rewrite try_catch_state.
  destruct (String.eqb (method req) "GET" && String.eqb (url req) "/health");
    [now split|].
  destruct (String.eqb_spec (method req) "POST") as [Hm | Hm];
    destruct (String.eqb_spec (url req) "/api/auth/signup") as [Hu | Hu];
    cbn [andb]; try (exfalso; apply Hnot; now split).
  all: repeat match goal with
         | |- context [if ?b then _ else _] => destruct b
         end.
  all: first [ apply standalone_signin_kept
             | apply standalone_refresh_kept
             | apply standalone_me_kept
             | now split ].
Qed.

(** X21. The standalone profile fetch sends the first stored record just
    as it is stored, adding nothing, provided the record's email converts
    to a string for the log (as every string does); with an empty
    collection it sends a made-up administrator with [user_id], [name] and
    [email] only. *)
Theorem standalone_profile_verbatim :
  forall (env : Env) (req : Request) (st : State),
    method req = "GET" -> url req = "/api/auth/me" ->
    not_bearer (authorization req) = false ->
    reportable (users st) = true ->
    let r := snd (Standalone.handleRequest uuid env req st) in
    status r = 200%Z /\
    (forall u : UserRecord, hd_error (users st) = Some u -> body r = Some (JObj u)) /\
    (users st = [] ->
     body r = Some (JObj [("user_id", JStr (uuid (draws st)));
                          ("name", JStr "Mock Admin");
                          ("email", JStr "admin@treeex.io")])).
Proof.
  intros env req st Hm Hu Hnb Hlog r.
  assert (Hme : r = sendJSON 200 (Standalone.literal
                      match hd_error (users st) with
                      | Some u => u
                      | None => [("user_id", JStr (uuid (draws st)));
                                 ("name", JStr "Mock Admin");
                                 ("email", JStr "admin@treeex.io")]
                      end)).
  { subst r. route_standalone Hm Hu.
    unfold try_catch, Standalone.me. rewrite Hnb.
    unfold reportable in Hlog.
    unfold bind, first_user, randomUUID, console_log, ret.
    destruct (hd_error (users st)); [now rewrite Hlog | reflexivity]. }
  rewrite Hme. unfold sendJSON. cbn [status body]. rewrite stringify_literal.
  split; [reflexivity|]. split.
  - now intros u ->.
  - now intros ->.
Qed.

(** * Properties of the token store of [mock-auth-server.js] *)

Lemma map_get_set_same {V : Type} (k : string) (v : V) (m : list (string * V)) :
  Express.map_get k (Express.map_set k v m) = Some v.
Proof.
  induction m as [|[k' v'] rest IH]; cbn [Express.map_set Express.map_get].
  - now rewrite String.eqb_refl.
  - destruct (String.eqb k k') eqn:Hk; cbn [Express.map_get].
    + now rewrite String.eqb_refl.
    + now rewrite Hk.
Qed.

Lemma map_get_set_other {V : Type} (k k' : string) (v : V) (m : list (string * V)) :
  k <> k' -> Express.map_get k (Express.map_set k' v m) = Express.map_get k m.
Proof.
  intros Hne. apply String.eqb_neq in Hne.
  induction m as [|[k0 v0] rest IH]; cbn [Express.map_set Express.map_get].
  - now rewrite Hne.
  - destruct (String.eqb_spec k' k0) as [-> | Hk0]; cbn [Express.map_get].
    + now rewrite Hne.
    + now rewrite IH.
Qed.

Lemma map_get_delete_same {V : Type} (k : string) (m : list (string * V)) :
  Express.map_get k (Express.map_delete k m) = None.
Proof.
  unfold Express.map_delete.
  induction m as [|[k' v'] rest IH]; cbn [filter Express.map_get fst]; [reflexivity|].
  destruct (String.eqb k k') eqn:Hk; cbn [negb Express.map_get]; [exact IH|].
  now rewrite Hk.
Qed.

Lemma map_get_delete_other {V : Type} (k k' : string) (m : list (string * V)) :
  k <> k' -> Express.map_get k (Express.map_delete k' m) = Express.map_get k m.
Proof.
  intros Hne. unfold Express.map_delete.
  induction m as [|[k0 v0] rest IH]; cbn [filter Express.map_get fst]; [reflexivity|].
  destruct (String.eqb_spec k' k0) as [-> | Hk0]; cbn [negb Express.map_get].
  - apply String.eqb_neq in Hne. now rewrite Hne.
  - now rewrite IH.
Qed.

Lemma map_get_in {V : Type} (k : string) (v : V) (m : list (string * V)) :
  Express.map_get k m = Some v -> In (k, v) m.
Proof.
  induction m as [|[k' v'] rest IH]; cbn [Express.map_get]; [discriminate|].
  destruct (String.eqb_spec k k') as [-> | _].
  - intros H. inversion H. now left.
  - intros H. right. now apply IH.
Qed.

Lemma map_get_filter_kept {V : Type} (p : string * V -> bool) (k : string) (v : V)
      (m : list (string * V)) :
  (forall k', p (k', v) = true) ->
  Express.map_get k m = Some v ->
  Express.map_get k (filter p m) = Some v.
Proof.
  intros Hp. induction m as [|[k' v'] rest IH]; cbn [Express.map_get filter]; [discriminate|].
  destruct (String.eqb k k') eqn:Hk.
  - intros H. inversion H; subst v'. rewrite Hp. cbn [Express.map_get]. now rewrite Hk.
  - intros H. destruct (p (k', v')); cbn [Express.map_get]; [rewrite Hk|]; now apply IH.
Qed.

Lemma bearer_token (t : string) :
  not_bearer (Some ("Bearer " ++ t)) = false /\
  Express.substring_from 7 ("Bearer " ++ t) = t.
Proof.
  split; [|reflexivity].
  rewrite not_bearer_prefix. now rewrite (prefix_append "Bearer " t).
Qed.

(** X22. An access token just issued by [generateTokens] verifies to its
    user for one hour: presented as a bearer header up to 3600000 ms after
    issue it is valid; presented later it is rejected as expired and
    removed from the store, after which it is rejected as unknown. *)
Theorem express_issued_token_verifies :
  forall (env later : Env) (user : string) (s : Express.Store),
    let s1 := snd (Express.generateTokens uuid env user s) in
    exists access : string,
      lookup "access_token" (fst (Express.generateTokens uuid env user s))
      = Some (JStr access) /\
      ((now_ms later <= now_ms env + 3600000)%Z ->
       Express.verifyAccessToken later (Some ("Bearer " ++ access)) s1
       = (Express.Valid user, s1)) /\
      ((now_ms env + 3600000 < now_ms later)%Z ->
       exists s2 : Express.Store,
         Express.verifyAccessToken later (Some ("Bearer " ++ access)) s1
         = (Express.Invalid "Access token has expired" 401, s2) /\
         Express.verifyAccessToken later (Some ("Bearer " ++ access)) s2
         = (Express.Invalid "Invalid or expired access token" 401, s2)).
Proof.
  intros env later user s s1.
  exists ("mock_access_" ++ uuid (Express.drawn s)).
  split; [reflexivity|].
  destruct (bearer_token ("mock_access_" ++ uuid (Express.drawn s))) as [Hnb Hsub].
  assert (Hget : Express.map_get ("mock_access_" ++ uuid (Express.drawn s)) (Express.tokens s1)
                 = Some (Express.mkTokenData user (now_ms env + 3600000))).
  { subst s1. cbn [Express.generateTokens snd Express.tokens]. apply map_get_set_same. }
  split.
  - intros Hle. unfold Express.verifyAccessToken. rewrite Hnb, Hsub, Hget.
    cbn [Express.expiresAt Express.userId].
    destruct (Z.ltb_spec (now_ms env + 3600000) (now_ms later)); [lia | reflexivity].
  - intros Hlt. eexists. split.
    + unfold Express.verifyAccessToken. rewrite Hnb, Hsub, Hget.
      cbn [Express.expiresAt Express.userId].
      destruct (Z.ltb_spec (now_ms env + 3600000) (now_ms later)); [reflexivity | lia].
    + unfold Express.verifyAccessToken. rewrite Hnb, Hsub.
      cbn [Express.tokens]. now rewrite map_get_delete_same.
Qed.

(** X23. Refresh tokens are single-use in the Express variant: a refresh
    with a stored, unexpired refresh token (made from an earlier draw) is
    answered 200 with a new pair for the same user, the new refresh and
    access tokens are stored, and the submitted token is removed, so
    submitting it again is answered 401 "Invalid or expired refresh
    token". *)
Theorem express_refresh_rotates :
  forall (env env' : Env) (body : Json) (s : Express.Store)
         (rt : string) (data : Express.TokenData) (k : nat),
    get body "refresh_token" = Some (JStr rt) ->
    rt <> "" ->
    Express.map_get rt (Express.refreshTokens s) = Some data ->
    (now_ms env <= Express.expiresAt data)%Z ->
    k < Express.drawn s -> rt = "mock_refresh_" ++ uuid k ->
    let r := fst (Express.refresh uuid env body s) in
    let s1 := snd (Express.refresh uuid env body s) in
    Express.code r = 200%Z /\
    (exists access new : string,
        lookup "access_token" (Express.payload r) = Some (JStr access) /\
        lookup "refresh_token" (Express.payload r) = Some (JStr new) /\
        new <> rt /\
        Express.map_get access (Express.tokens s1)
        = Some (Express.mkTokenData (Express.userId data) (now_ms env + 3600000)) /\
        Express.map_get new (Express.refreshTokens s1)
        = Some (Express.mkTokenData (Express.userId data) (now_ms env + 2592000000))) /\
    Express.map_get rt (Express.refreshTokens s1) = None /\
    Express.refresh uuid env' body s1
    = (Express.reply 401 (Express.detail "Invalid or expired refresh token"), s1).
Proof.
  intros env env' body s rt data k Hbody Hne Hget Hlive Hk Hrt r s1.
  destruct (get_some_object _ _ _ Hbody) as [fields [-> Hfield]].
  assert (Htruthy : truthy (JStr rt) = true) by now apply string_truthy.
  assert (Hnew : "mock_refresh_" ++ uuid (S (Express.drawn s)) <> rt).
  { rewrite Hrt. cbn [append]. intros H. inversion H as [Hu].
    apply uuid_fresh in Hu. lia. }
  assert (Hrun : Express.refresh uuid env (JObj fields) s =
                 (Express.mkReply 200 (fst (Express.generateTokens uuid env (Express.userId data) s)),
                  let s0 := snd (Express.generateTokens uuid env (Express.userId data) s) in
                  Express.mkStore (Express.users s0) (Express.tokens s0)
                    (Express.map_delete rt (Express.refreshTokens s0)) (Express.drawn s0))).
  { unfold Express.refresh. rewrite Hbody, Htruthy. cbn [negb Express.get_by_value].
    rewrite Hget.
    destruct (Z.ltb_spec (Express.expiresAt data) (now_ms env)); [lia|].
    reflexivity. }
  subst r s1. rewrite Hrun. cbn [fst snd Express.code Express.payload].
  cbn [Express.generateTokens fst snd Express.users Express.tokens Express.refreshTokens
       Express.drawn].
  split; [reflexivity|]. split; [|split].
  - exists ("mock_access_" ++ uuid (Express.drawn s)),
           ("mock_refresh_" ++ uuid (S (Express.drawn s))).
    split; [reflexivity|]. split; [reflexivity|]. split; [exact Hnew|]. split.
    + apply map_get_set_same.
    + rewrite map_get_delete_other by exact Hnew. apply map_get_set_same.
  - apply map_get_delete_same.
  - unfold Express.refresh. rewrite Hbody, Htruthy.
    cbn [negb Express.get_by_value Express.refreshTokens].
    now rewrite map_get_delete_same.
Qed.

(** X24. Logout always answers 200.  With a bearer header whose token is
    in the store, it removes that access token and every refresh token of
    the token's user, and nothing else: refresh tokens of other users, all
    other access tokens (also of the same user) and the users stay as they
    were.  With any other header the store is unchanged. *)
Theorem express_logout_revokes :
  forall (authHeader : option string) (s : Express.Store),
    let s1 := snd (Express.logout authHeader s) in
    Express.code (fst (Express.logout authHeader s)) = 200%Z /\
    (forall (tok : string) (data : Express.TokenData),
        authHeader = Some ("Bearer " ++ tok) ->
        Express.map_get tok (Express.tokens s) = Some data ->
        Express.map_get tok (Express.tokens s1) = None /\
        (forall rt d, Express.map_get rt (Express.refreshTokens s1) = Some d ->
                      Express.userId d <> Express.userId data) /\
        (forall rt d, Express.map_get rt (Express.refreshTokens s) = Some d ->
                      Express.userId d <> Express.userId data ->
                      Express.map_get rt (Express.refreshTokens s1) = Some d) /\
        (forall tok', tok' <> tok ->
                      Express.map_get tok' (Express.tokens s1)
                      = Express.map_get tok' (Express.tokens s)) /\
        Express.users s1 = Express.users s) /\
    ((authHeader = None \/
      exists h, authHeader = Some h /\
                (not_bearer (Some h) = true \/
                 Express.map_get (Express.substring_from 7 h) (Express.tokens s) = None)) ->
     s1 = s).
Proof.
  intros authHeader s s1. split; [reflexivity|]. split.
  - intros tok data -> Hget. subst s1.
    destruct (bearer_token tok) as [Hnb Hsub].
    unfold Express.logout. rewrite Hnb, Hsub, Hget.
    cbn [snd Express.tokens Express.refreshTokens Express.users].
    split; [apply map_get_delete_same|]. split; [|split; [|split; [|reflexivity]]].
    + intros rt d Hd Heq. apply map_get_in, filter_In in Hd.
      destruct Hd as [_ Hp]. cbn [snd] in Hp. rewrite Heq, String.eqb_refl in Hp.
      discriminate Hp.
    + intros rt d Hd Hne. apply map_get_filter_kept; [|exact Hd].
      intros k'. cbn [snd]. apply String.eqb_neq in Hne. now rewrite Hne.
    + intros tok' Hne. now apply map_get_delete_other.
  - subst s1. unfold Express.logout. intros [-> | (h & -> & [Hnb | Hnone])].
    + reflexivity.
    + now rewrite Hnb.
    + destruct (not_bearer (Some h)); [reflexivity|]. now rewrite Hnone.
Qed.

(** X25. The Express profile fetch accepts issued tokens only: a bearer
    token that is not in the store is answered 401 "Invalid or expired
    access token"; a stored, unexpired token whose user has no record is
    answered 404 "User not found"; with a record, the answer is 200 with
    the record's [user_id], [name], [email] and [created_at].  None of the
    three changes the store. *)
Theorem express_me_checks_token :
  forall (env : Env) (tok : string) (s : Express.Store),
    let header := Some ("Bearer " ++ tok) in
    (Express.map_get tok (Express.tokens s) = None ->
     Express.me env header s
     = (Express.reply 401 (Express.detail "Invalid or expired access token"), s)) /\
    (forall data : Express.TokenData,
        Express.map_get tok (Express.tokens s) = Some data ->
        (now_ms env <= Express.expiresAt data)%Z ->
        let found := find (fun u => strict_eq (lookup "user_id" u)
                                              (Some (JStr (Express.userId data))))
                          (map snd (Express.users s)) in
        (found = None ->
         Express.me env header s
         = (Express.reply 404 (Express.detail "User not found"), s)) /\
        (forall u : UserRecord,
            found = Some u ->
            snd (Express.me env header s) = s /\
            Express.code (fst (Express.me env header s)) = 200%Z /\
            forall key : string,
              In key ["user_id"; "name"; "email"; "created_at"] ->
              lookup key (Express.payload (fst (Express.me env header s))) = lookup key u)).
Proof.
  intros env tok s header. subst header.
  destruct (bearer_token tok) as [Hnb Hsub].
  split.
  - intros Hnone. unfold Express.me, Express.verifyAccessToken.
    now rewrite Hnb, Hsub, Hnone.
  - intros data Hget Hlive found.
    assert (Hv : Express.verifyAccessToken env (Some ("Bearer " ++ tok)) s
                 = (Express.Valid (Express.userId data), s)).
    { unfold Express.verifyAccessToken. rewrite Hnb, Hsub, Hget.
      destruct (Z.ltb_spec (Express.expiresAt data) (now_ms env)); [lia | reflexivity]. }
    split.
    + intros Hfound. unfold Express.me. rewrite Hv. fold found. now rewrite Hfound.
    + intros u Hfound. unfold Express.me. rewrite Hv. fold found. rewrite Hfound.
      cbn [fst snd Express.code]. split; [reflexivity|]. split; [reflexivity|].
      intros key Hin. unfold Express.reply. cbn [Express.payload].
      rewrite lookup_stringify. cbn [In] in Hin.
      repeat destruct Hin as [<- | Hin]; try contradiction;
        cbn [lookup_literal String.eqb Ascii.eqb Bool.eqb]; apply option_eta.
Qed.

(** X26. The standalone signin accepts any truthy password and any
    truthy email that converts to a string for the log (as every string
    does): the answer is 200 with the [user_id] of the first record stored
    for the email, or a made-up one when there is none, and with
    [access_token], [refresh_token] and [token_type] but no [expires_at];
    nothing is stored. *)
Theorem standalone_signin_permissive :
  forall (env : Env) (req : Request) (st : State)
         (fields : list (string * Json)) (email password : Json),
    method req = "POST" -> url req = "/api/auth/signin" ->
    raw_body req = JsonText (JObj fields) ->
    lookup "email" fields = Some email -> truthy email = true ->
    printable email = true ->
    lookup "password" fields = Some password -> truthy password = true ->
    let r := snd (Standalone.handleRequest uuid env req st) in
    let st' := fst (Standalone.handleRequest uuid env req st) in
    status r = 200%Z /\
    body_field "user_id" r
    = match find_by_email email (users st) with
      | Some u => lookup "user_id" u
      | None => Some (JStr (uuid (draws st)))
      end /\
    (body_field "user_id" r <> None ->
     body_keys r = ["user_id"; "access_token"; "refresh_token"; "token_type"]) /\
    body_field "token_type" r = Some (JStr "bearer") /\
    body_field "expires_at" r = None /\
    users st' = users st /\ disk st' = disk st.
Proof.
  intros env req st fields email password Hm Hu Hbody He Te Hlog Hp Tp r st'.
  assert (Hs : Standalone.handleRequest uuid env req st =
               match find_by_email email (users st) with
               | Some u =>
                   (bump 2 st,
                    sendJSON 200
                      [("user_id", lookup "user_id" u);
                       ("access_token", Some (JStr ("mock_access_token_" ++ uuid (draws st))));
                       ("refresh_token",
                        Some (JStr ("mock_refresh_token_" ++ uuid (S (draws st)))));
                       ("token_type", Some (JStr "bearer"))])
               | None =>
                   (bump 3 st,
                    sendJSON 200
                      [("user_id", Some (JStr (uuid (draws st))));
                       ("access_token", Some (JStr ("mock_access_token_" ++ uuid (S (draws st)))));
                       ("refresh_token",
                        Some (JStr ("mock_refresh_token_" ++ uuid (S (S (draws st))))));
                       ("token_type", Some (JStr "bearer"))])
               end).
  { route_standalone Hm Hu. unfold try_catch, Standalone.signin. rewrite Hbody.
    cbn [Standalone.parseBody]. unfold destructure, bind at 1, ret at 1. cbn [get].
    rewrite He, Hp, Te, Tp. cbn [negb orb].
    unfold bind at 1, find_user at 1, find_by_email. cbn [fst snd].
    destruct (find (fun u => strict_eq (lookup "email" u) (Some email)) (users st));
      unfold console_log, bind, Standalone.generateTokens, randomUUID, ret;
      cbn [fst snd users disk draws printableV]; rewrite Hlog; reflexivity. }
  subst r st'. rewrite Hs.
  destruct (find_by_email email (users st)) as [u|]; cbn [fst snd bump users disk].
  - rewrite !body_field_sendJSON.
    cbn [lookup_literal String.eqb Ascii.eqb Bool.eqb].
    unfold body_keys, body_fields, sendJSON. cbn [body stringify].
    destruct (lookup "user_id" u) as [id|]; repeat split; try reflexivity.
    intros H. now contradiction H.
  - rewrite !body_field_sendJSON. repeat split; reflexivity.
Qed.

End Properties.

(** * Example runs *)

Lemma tally_injective (i j : nat) : tally i = tally j -> i = j.
Proof.
  revert j. induction i as [|i IH]; destruct j as [|j]; cbn [tally]; intros H.
  - reflexivity.
  - discriminate H.
  - discriminate H.
  - f_equal. apply IH. now inversion H.
Qed.

Lemma sample_uuid_fresh (i j : nat) : sample_uuid i = sample_uuid j -> i = j.
Proof.
  unfold sample_uuid. cbn [append]. intros H. inversion H. now apply tally_injective.
Qed.

Lemma with_alice_reachable : reachable sample_uuid with_alice.
Proof. exact (reach_step sample_uuid (Serve noon alice_signup) blank (reach_blank sample_uuid)). Qed.

Lemma with_alice_identified : identified (users with_alice).
Proof. repeat constructor. now exists (JStr "uuid-"). Qed.

Lemma signin_accepts_any_credentials_witness :
  identified (users with_alice) /\
  route_of bob_signin = Signin /\
  status (snd (handleRequest sample_uuid noon bob_signin with_alice)) = 200%Z.
Proof.
  split; [exact with_alice_identified|]. split; [reflexivity|].
  exact (proj1 (signin_accepts_any_credentials sample_uuid noon bob_signin with_alice
                  (credentials (JStr "bob@notexists.com") (JStr "x"))
                  (JStr "bob@notexists.com") (JStr "x")
                  with_alice_identified eq_refl eq_refl eq_refl eq_refl eq_refl
                  eq_refl eq_refl)).
Defined.

Lemma only_signup_mutates_witness :
  Url.origin_form (url bob_signin) = true /\
  route_of bob_signin <> Signup /\
  users (fst (handleRequest sample_uuid noon bob_signin with_alice)) = users with_alice /\
  disk (fst (handleRequest sample_uuid noon bob_signin with_alice)) = disk with_alice.
Proof.
  assert (Hroute : route_of bob_signin <> Signup) by discriminate.
  split; [reflexivity|]. split; [exact Hroute|].
  exact (proj1 (only_signup_mutates sample_uuid sample_uuid_fresh noon bob_signin with_alice)
               eq_refl Hroute).
Defined.

Lemma response_schemas_witness :
  identified (users with_alice) /\
  status (snd (handleRequest sample_uuid noon alice_signin with_alice)) = 200%Z /\
  body_keys (snd (handleRequest sample_uuid noon alice_signin with_alice))
  = ["user_id"; "access_token"; "refresh_token"; "token_type"].
Proof.
  split; [exact with_alice_identified|]. split; [reflexivity|].
  exact (proj1 (proj1 (response_schemas sample_uuid noon alice_signin with_alice
                         with_alice_identified eq_refl) eq_refl)).
Defined.

Lemma signin_returns_signup_user_id_witness :
  find_by_email (JStr "alice@example.com") (users blank) = None /\
  same_lifetime [Serve noon bob_signin; Serve noon any_refresh] = true /\
  body_field "user_id"
    (snd (handleRequest sample_uuid noon alice_signin
            (fst (run sample_uuid [Serve noon bob_signin; Serve noon any_refresh] with_alice))))
  = body_field "user_id" (snd (handleRequest sample_uuid noon alice_signup blank)).
Proof.
  split; [reflexivity|]. split; [reflexivity|].
  assert (Hne : "alice@example.com" <> "") by discriminate.
  exact (proj2 (proj2 (proj2
           (signin_returns_signup_user_id sample_uuid noon alice_signup blank
              [("email", JStr "alice@example.com");
               ("password", JStr "securepassword");
               ("name", JStr "Alice")]
              "alice@example.com" (JStr "securepassword")
              eq_refl eq_refl eq_refl Hne eq_refl eq_refl eq_refl))
           [Serve noon bob_signin; Serve noon any_refresh] noon alice_signin
           (credentials (JStr "alice@example.com") (JStr "anypassword"))
           (JStr "anypassword") eq_refl eq_refl eq_refl eq_refl eq_refl eq_refl)).
Defined.

Lemma signup_two_tier_validation_witness :
  route_of empty_signup = Signup /\
  status (snd (handleRequest sample_uuid noon empty_signup blank)) = 422%Z /\
  detail_entries (snd (handleRequest sample_uuid noon empty_signup blank)) = [generic_entry].
Proof.
  split; [reflexivity|].
  assert (Hnull : JObj [] <> JNull) by discriminate.
  exact (proj1 (signup_two_tier_validation sample_uuid noon empty_signup blank (JObj [])
                  eq_refl eq_refl Hnull) (or_introl eq_refl)).
Defined.



Lemma crowded_reachable : reachable sample_uuid crowded.
Proof. exact (run_reachable sample_uuid busy_day blank (reach_blank sample_uuid)). Qed.

Lemma user_ids_stay_unique_witness :
  reachable sample_uuid crowded /\
  user_ids (users crowded)
  = [Some (JStr (sample_uuid 0)); Some (JStr (sample_uuid 6)); Some (JStr (sample_uuid 9))] /\
  NoDup (user_ids (users crowded)).
Proof.
  split; [exact crowded_reachable|]. split; [reflexivity|].
  exact (proj1 (proj1 (user_ids_stay_unique sample_uuid sample_uuid_fresh)
                      crowded crowded_reachable)).
Defined.

Lemma query_string_ignored_witness :
  handleRequest sample_uuid noon
    (with_url bob_signin (url bob_signin ++ "?" ++ "ref=google&foo=bar")) with_alice
  = handleRequest sample_uuid noon bob_signin with_alice.
Proof.
  exact (proj2 (proj1 (query_string_ignored sample_uuid) bob_signin "ref=google&foo=bar")
               noon with_alice).
Defined.


(** C5 as stated fails: a signup body with neither [email] nor
    [password] misses two fields, yet the detail list of the 422 response
    has one entry. *)
Lemma signup_both_missing_single_entry :
  let r := snd (handleRequest sample_uuid noon empty_signup blank) in
  status r = 422%Z /\
  missing_fields [] = ["email"; "password"] /\
  detail_entries r = [generic_entry] /\
  List.length (detail_entries r) <> List.length (missing_fields []).
Proof. repeat split; try reflexivity. cbn. discriminate. Qed.

(** C8 as stated fails: a second signup with Alice's email is accepted
    and leaves two records with the same email in a reachable state. *)
Lemma repeated_signup_duplicates_email :
  reachable sample_uuid with_alice_twice /\
  status (snd (handleRequest sample_uuid noon alice_signup with_alice)) = 200%Z /\
  emails (users with_alice_twice)
  = [Some (JStr "alice@example.com"); Some (JStr "alice@example.com")] /\
  ~ NoDup (emails (users with_alice_twice)).
Proof.
  split; [|split; [reflexivity | split; [reflexivity|]]].
  - exact (reach_step sample_uuid (Serve noon alice_signup) with_alice with_alice_reachable).
  - intros H. inversion H as [|v l Hnotin _]. apply Hnotin. now left.
Qed.

(** * The sibling [mock-auth-server-standalone.js] *)

(** The standalone server accepts any non-empty credentials as well. *)
Lemma standalone_signin_any_credentials
      (uuid : nat -> string) (env : Env) (st : State)
      (fields : list (string * Json)) (email password : Json) :
  lookup "email" fields = Some email -> truthy email = true ->
  printable email = true ->
  lookup "password" fields = Some password -> truthy password = true ->
  status (snd (Standalone.handleRequest uuid env (post "/api/auth/signin" fields) st)) = 200%Z.
Proof.
  intros He Te Hlog Hp Tp.
  unfold Standalone.handleRequest, Standalone.dispatch, post.
  cbn [method url String.eqb Ascii.eqb Bool.eqb andb].
  unfold try_catch, Standalone.signin. cbn [raw_body Standalone.parseBody].
  unfold destructure, bind at 1, ret at 1. cbn [get].
  rewrite He, Hp, Te, Tp. cbn [negb orb].
  unfold bind at 1, find_user at 1.
  cbn [fst snd].
  destruct (find (fun u => strict_eq (lookup "email" u) (Some email)) (users st));
    unfold console_log, bind, Standalone.generateTokens, randomUUID, ret;
    cbn [fst snd users disk draws printableV]; rewrite Hlog; reflexivity.
Qed.

(** It compares the raw request-target with the route paths, so a query
    string sends a signin to the 404 branch. *)
Lemma standalone_query_string_not_found
      (uuid : nat -> string) (env : Env) (st : State) (fields : list (string * Json)) :
  Standalone.handleRequest uuid env (post "/api/auth/signin?ref=google" fields) st
  = (st, sendJSON 404 (detail "Not found")).
Proof. reflexivity. Qed.

(** It has a single validation tier: an empty email is answered 422. *)
Lemma standalone_signup_single_tier
      (uuid : nat -> string) (env : Env) (st : State) (password : Json) :
  Standalone.handleRequest uuid env
    (post "/api/auth/signup" (credentials (JStr "") password)) st
  = (st, sendJSON 422 Standalone.email_required).
Proof. reflexivity. Qed.

(** * Example runs of the further properties *)

Lemma unusable_body_rejected_witness :
  reads_body malformed_signin /\
  handleRequest sample_uuid noon malformed_signin with_alice
  = (with_alice, sendJSON 400 (detail "Invalid JSON")).
Proof.
  assert (Hreads : reads_body malformed_signin) by (right; left; reflexivity).
  split; [exact Hreads|].
  exact (proj1 (unusable_body_rejected sample_uuid noon malformed_signin with_alice Hreads)
               eq_refl).
Defined.

Lemma signin_two_tier_validation_witness :
  route_of empty_signin = Signin /\
  handleRequest sample_uuid noon empty_signin blank
  = (blank, sendJSON 422 (detail "Email and password are required")).
Proof.
  assert (Hnull : JObj [] <> JNull) by discriminate.
  split; [reflexivity|].
  exact (proj1 (signin_two_tier_validation sample_uuid noon empty_signin blank (JObj [])
                  eq_refl eq_refl Hnull) (or_introl eq_refl)).
Defined.

Lemma signup_default_name_witness :
  route_of charlie_signup = Signup /\
  body_field "name" (snd (handleRequest sample_uuid noon charlie_signup blank))
  = Some (JStr "charlie").
Proof.
  assert (Hne : "charlie@example.com" <> "") by discriminate.
  split; [reflexivity|].
  exact (proj1 (proj2 (signup_default_name sample_uuid noon charlie_signup blank
                         [("email", JStr "charlie@example.com");
                          ("password", JStr "password123")]
                         "charlie@example.com" (JStr "password123")
                         eq_refl eq_refl eq_refl Hne eq_refl eq_refl eq_refl))).
Defined.

Lemma signup_non_string_email_fails_witness :
  route_of numeric_signup = Signup /\
  snd (handleRequest sample_uuid noon numeric_signup with_alice)
  = sendJSON 500 (detail "Internal server error") /\
  users (fst (handleRequest sample_uuid noon numeric_signup with_alice)) = users with_alice.
Proof.
  assert (Hns : forall s : string, JNum 5 <> JStr s) by discriminate.
  split; [reflexivity|].
  pose proof (signup_non_string_email_fails sample_uuid noon numeric_signup with_alice
                [("email", JNum 5); ("password", JStr "x")] (JNum 5) (JStr "x")
                eq_refl eq_refl eq_refl eq_refl Hns eq_refl eq_refl eq_refl) as H.
  exact (conj (proj1 H) (proj1 (proj2 H))).
Defined.

Lemma internal_error_only_when_witness :
  Url.origin_form (url opaque_signup) = true /\
  status (snd (handleRequest sample_uuid noon opaque_signup blank)) = 500%Z /\
  (reads_body opaque_signup /\ raw_body opaque_signup = JsonText JNull \/
   route_of opaque_signup = Signup /\
   (exists (fields : list (string * Json)) (email : Json),
      raw_body opaque_signup = JsonText (JObj fields) /\
      lookup "email" fields = Some email /\
      truthy email = true /\
      (forall s : string, email <> JStr s) /\
      truthyV (lookup "name" fields) = false) \/
   (route_of opaque_signup = Signup \/ route_of opaque_signup = Signin) /\
   (exists (fields : list (string * Json)) (email : Json),
      raw_body opaque_signup = JsonText (JObj fields) /\
      lookup "email" fields = Some email /\
      truthy email = true /\ printable email = false) \/
   route_of opaque_signup = Me /\ reportable (users blank) = false).
Proof.
  split; [reflexivity|]. split; [reflexivity|].
  exact (internal_error_only_when sample_uuid noon opaque_signup blank eq_refl eq_refl).
Defined.

Lemma restart_restores_collection_witness :
  persisted blank /\ write_ok noon = true /\
  users (restart noon (fst (handleRequest sample_uuid noon alice_signup blank)))
  = users (fst (handleRequest sample_uuid noon alice_signup blank)).
Proof.
  split; [reflexivity|]. split; [reflexivity|].
  exact (proj1 (proj2 (restart_restores_collection sample_uuid noon noon alice_signup blank
                         eq_refl eq_refl))).
Defined.

Lemma failed_write_forgets_signup_witness :
  persisted blank /\ write_ok dusk = false /\
  status (snd (handleRequest sample_uuid dusk alice_signup blank)) = 200%Z /\
  users (restart noon (fst (handleRequest sample_uuid dusk alice_signup blank))) = users blank.
Proof.
  assert (Hne : "alice@example.com" <> "") by discriminate.
  split; [reflexivity|]. split; [reflexivity|].
  pose proof (failed_write_forgets_signup sample_uuid dusk noon alice_signup blank
                [("email", JStr "alice@example.com");
                 ("password", JStr "securepassword");
                 ("name", JStr "Alice")]
                "alice@example.com" (JStr "securepassword")
                eq_refl eq_refl eq_refl eq_refl eq_refl Hne eq_refl eq_refl eq_refl) as H.
  exact (conj (proj1 H) (proj1 (proj2 (proj2 (proj2 H))))).
Defined.

Lemma snapshot_is_prefix_of_collection_witness :
  reachable sample_uuid with_alice /\
  exists extra : list UserRecord, users with_alice = (snapshot with_alice ++ extra)%list.
Proof.
  split; [exact with_alice_reachable|].
  exact (snapshot_is_prefix_of_collection sample_uuid with_alice with_alice_reachable).
Defined.

Lemma collection_append_only_witness :
  same_lifetime [Serve noon bob_signin; Serve noon charlie_signup] = true /\
  exists extra : list UserRecord,
    users (fst (run sample_uuid [Serve noon bob_signin; Serve noon charlie_signup] with_alice))
    = (users with_alice ++ extra)%list.
Proof.
  split; [reflexivity|].
  exact (proj1 (collection_append_only sample_uuid
                  [Serve noon bob_signin; Serve noon charlie_signup] with_alice eq_refl)).
Defined.

Lemma profile_fetch_reports_first_record_witness :
  same_lifetime [Serve noon charlie_signup] = true /\
  body_field "email"
    (snd (handleRequest sample_uuid noon fake_me
            (fst (run sample_uuid [Serve noon charlie_signup] with_alice))))
  = Some (JStr "alice@example.com").
Proof.
  split; [reflexivity|].
  exact (f_equal (body_field "email")
           (profile_fetch_reports_first_record sample_uuid [Serve noon charlie_signup]
              noon fake_me with_alice
              (stored_record (sample_uuid 0) (JStr "Alice") (JStr "alice@example.com")
                             (now_iso noon))
              eq_refl eq_refl eq_refl eq_refl)).
Defined.


Lemma refresh_token_pair_shape_witness :
  route_of any_refresh = Refresh /\
  body_keys (snd (handleRequest sample_uuid noon any_refresh blank))
  = ["access_token"; "refresh_token"; "token_type"; "expires_at"].
Proof.
  split; [reflexivity|].
  exact (proj1 (refresh_token_pair_shape sample_uuid noon any_refresh blank
                  (JObj [("refresh_token", JStr "any_random_string_works")])
                  eq_refl eq_refl eq_refl)).
Defined.

Lemma access_tokens_never_repeat_witness :
  NoDup (issued_tokens
           (snd (run sample_uuid
                   [Serve noon alice_signup; Serve noon alice_signin;
                    Restart noon; Serve noon any_refresh] blank))).
Proof.
  exact (access_tokens_never_repeat sample_uuid sample_uuid_fresh
           [Serve noon alice_signup; Serve noon alice_signin;
            Restart noon; Serve noon any_refresh] blank).
Defined.

Lemma ghost_user_id_not_stable_witness :
  find_by_email (JStr "bob@notexists.com") (users with_alice) = None /\
  body_field "user_id" (snd (handleRequest sample_uuid noon bob_signin with_alice))
  <> body_field "user_id"
       (snd (handleRequest sample_uuid noon bob_signin
               (fst (handleRequest sample_uuid noon bob_signin with_alice)))).
Proof.
  split; [reflexivity|].
  exact (proj1 (proj2 (proj2
           (ghost_user_id_not_stable sample_uuid sample_uuid_fresh noon noon
              bob_signin bob_signin with_alice
              (credentials (JStr "bob@notexists.com") (JStr "x"))
              (credentials (JStr "bob@notexists.com") (JStr "x"))
              (JStr "bob@notexists.com") (JStr "x") (JStr "x")
              eq_refl eq_refl eq_refl eq_refl eq_refl eq_refl eq_refl eq_refl
              eq_refl eq_refl eq_refl eq_refl eq_refl)))).
Defined.

Lemma repeated_signup_keeps_first_identity_witness :
  reachable sample_uuid with_alice /\
  body_field "user_id"
    (snd (handleRequest sample_uuid noon alice_signin
            (fst (handleRequest sample_uuid noon alice_signup with_alice))))
  <> body_field "user_id" (snd (handleRequest sample_uuid noon alice_signup with_alice)).
Proof.
  assert (Hne : "alice@example.com" <> "") by discriminate.
  split; [exact with_alice_reachable|].
  exact (proj2 (proj2 (proj2
           (repeated_signup_keeps_first_identity sample_uuid sample_uuid_fresh noon noon
              alice_signup alice_signin with_alice
              [("email", JStr "alice@example.com");
               ("password", JStr "securepassword");
               ("name", JStr "Alice")]
              (credentials (JStr "alice@example.com") (JStr "anypassword"))
              "alice@example.com" (JStr "securepassword") (JStr "anypassword")
              (stored_record (sample_uuid 0) (JStr "Alice") (JStr "alice@example.com")
                             (now_iso noon))
              with_alice_reachable eq_refl eq_refl eq_refl eq_refl eq_refl eq_refl Hne
              eq_refl eq_refl eq_refl eq_refl eq_refl)))).
Defined.

Lemma standalone_malformed_body_as_empty_witness :
  raw_body malformed_signin = Malformed /\
  status (snd (Standalone.handleRequest sample_uuid noon malformed_signin blank)) = 422%Z.
Proof.
  split; [reflexivity|].
  exact (proj1 (proj2 (standalone_malformed_body_as_empty sample_uuid noon malformed_signin
                         blank eq_refl) eq_refl (or_intror (or_introl eq_refl)))).
Defined.

Lemma standalone_signup_single_validation_tier_witness :
  truthyV (lookup "email" (credentials (JStr "") (JStr "x"))) = false /\
  Standalone.handleRequest sample_uuid noon
    (post "/api/auth/signup" (credentials (JStr "") (JStr "x"))) blank
  = (blank, sendJSON 422 Standalone.email_required).
Proof.
  split; [reflexivity|].
  exact (proj1 (standalone_signup_single_validation_tier sample_uuid noon
                  (post "/api/auth/signup" (credentials (JStr "") (JStr "x"))) blank
                  (credentials (JStr "") (JStr "x"))
                  eq_refl eq_refl eq_refl (or_introl eq_refl))).
Defined.

Lemma standalone_signup_response_witness :
  method charlie_signup = "POST" /\ url charlie_signup = "/api/auth/signup" /\
  printable (JStr "charlie@example.com") = true /\
  body_field "name" (snd (Standalone.handleRequest sample_uuid noon charlie_signup blank))
  = Some (JStr "New User").
Proof.
  split; [reflexivity|]. split; [reflexivity|]. split; [reflexivity|].
  exact (proj1 (proj2 (proj2 (proj1 (proj2 (proj2
           (standalone_signup_response sample_uuid noon charlie_signup blank
              [("email", JStr "charlie@example.com"); ("password", JStr "password123")]
              (JStr "charlie@example.com") (JStr "password123")
              eq_refl eq_refl eq_refl eq_refl eq_refl eq_refl eq_refl))) eq_refl)))).
Defined.

Lemma standalone_query_string_unrouted_witness :
  method query_signin <> "OPTIONS" /\
  In "?"%char (list_ascii_of_string (url query_signin)) /\
  Standalone.handleRequest sample_uuid noon query_signin blank
  = (blank, sendJSON 404 (detail "Not found")).
Proof.
  assert (Hm : method query_signin <> "OPTIONS") by discriminate.
  assert (Hin : In "?"%char (list_ascii_of_string (url query_signin)))
    by (cbn; do 16 right; now left).
  split; [exact Hm|]. split; [exact Hin|].
  exact (standalone_query_string_unrouted sample_uuid noon query_signin blank Hm Hin).
Defined.

Lemma standalone_only_signup_mutates_witness :
  ~ (method bob_signin = "POST" /\ url bob_signin = "/api/auth/signup") /\
  users (fst (Standalone.handleRequest sample_uuid noon bob_signin blank)) = users blank.
Proof.
  assert (Hnot : ~ (method bob_signin = "POST" /\ url bob_signin = "/api/auth/signup"))
    by (intros [_ H]; discriminate H).
  split; [exact Hnot|].
  exact (proj1 (standalone_only_signup_mutates sample_uuid noon bob_signin blank Hnot)).
Defined.

Lemma standalone_profile_verbatim_witness :
  not_bearer (authorization fake_me) = false /\
  reportable (users with_alice) = true /\
  body (snd (Standalone.handleRequest sample_uuid noon fake_me with_alice))
  = Some (JObj (stored_record (sample_uuid 0) (JStr "Alice") (JStr "alice@example.com")
                              (now_iso noon))).
Proof.
  split; [reflexivity|]. split; [reflexivity|].
  exact (proj1 (proj2 (standalone_profile_verbatim sample_uuid noon fake_me with_alice
                         eq_refl eq_refl eq_refl eq_refl)) _ eq_refl).
Defined.

Lemma standalone_signin_permissive_witness :
  truthy (JStr "bob@notexists.com") = true /\
  status (snd (Standalone.handleRequest sample_uuid noon bob_signin blank)) = 200%Z.
Proof.
  split; [reflexivity|].
  exact (proj1 (standalone_signin_permissive sample_uuid noon bob_signin blank
                  (credentials (JStr "bob@notexists.com") (JStr "x"))
                  (JStr "bob@notexists.com") (JStr "x")
                  eq_refl eq_refl eq_refl eq_refl eq_refl eq_refl eq_refl eq_refl)).
Defined.

Lemma unloggable_signup_stored_then_fails_witness :
  route_of opaque_signup = Signup /\
  printable opaque_email = false /\
  snd (handleRequest sample_uuid noon opaque_signup blank)
  = sendJSON 500 (detail "Internal server error") /\
  emails (users (fst (handleRequest sample_uuid noon opaque_signup blank)))
  = [Some opaque_email] /\
  status (snd (handleRequest sample_uuid noon fake_me
                 (fst (run sample_uuid [Serve noon alice_signup]
                         (fst (handleRequest sample_uuid noon opaque_signup blank))))))
  = 500%Z.
Proof.
  pose proof (unloggable_signup_stored_then_fails sample_uuid noon opaque_signup blank
                [("email", opaque_email); ("password", JStr "x"); ("name", JStr "Eve")]
                opaque_email (JStr "x") (JStr "Eve")
                eq_refl eq_refl eq_refl eq_refl eq_refl eq_refl eq_refl eq_refl eq_refl) as H.
  split; [reflexivity|]. split; [reflexivity|]. split; [exact (proj1 H)|].
  split; [exact (f_equal emails (proj1 (proj2 H)))|].
  exact (f_equal status
           (proj2 (proj2 (proj2 H)) eq_refl [Serve noon alice_signup] noon fake_me
                  eq_refl eq_refl eq_refl)).
Defined.

Lemma express_refresh_rotates_witness :
  Express.map_get ("mock_refresh_" ++ sample_uuid 1) (Express.refreshTokens one_session)
  = Some (Express.mkTokenData "u-1" (now_ms noon + 2592000000)) /\
  Express.code
    (fst (Express.refresh sample_uuid dusk
            (JObj [("refresh_token", JStr ("mock_refresh_" ++ sample_uuid 1))])
            one_session)) = 200%Z.
Proof.
  assert (Hne : "mock_refresh_" ++ sample_uuid 1 <> "") by discriminate.
  assert (Hlive : (now_ms dusk <= Express.expiresAt
                     (Express.mkTokenData "u-1" (now_ms noon + 2592000000)))%Z)
    by (cbn; lia).
  assert (Hk : 1 < Express.drawn one_session) by (cbn; lia).
  split; [reflexivity|].
  exact (proj1 (express_refresh_rotates sample_uuid sample_uuid_fresh dusk dusk
                  (JObj [("refresh_token", JStr ("mock_refresh_" ++ sample_uuid 1))])
                  one_session ("mock_refresh_" ++ sample_uuid 1)
                  (Express.mkTokenData "u-1" (now_ms noon + 2592000000)) 1
                  eq_refl Hne eq_refl Hlive Hk eq_refl)).
Defined.

Lemma unloggable_signin_fails_witness :
  route_of opaque_signin = Signin /\
  printable opaque_email = false /\
  snd (handleRequest sample_uuid noon opaque_signin with_alice)
  = sendJSON 500 (detail "Internal server error").
Proof.
  split; [reflexivity|]. split; [reflexivity|].
  exact (proj1 (unloggable_signin_fails sample_uuid noon opaque_signin with_alice
                  (credentials opaque_email (JStr "x")) opaque_email (JStr "x")
                  eq_refl eq_refl eq_refl eq_refl eq_refl eq_refl eq_refl)).
Defined.
